(** * Budget Tracker Pro: the transaction ledger and its derived views

    A shallow embedding of [bt.py].  The script is Streamlit glue around a
    pandas table kept in the session state; what is embedded here is the
    ledger logic: schema enforcement ([ensure_schema]), the recurring
    reconciliation loop, the import block, the text filter, the edit
    block, the budget check and the cumulative balance series.

    Modelling conventions.
    - A pandas cell is a [cell]: a null marker ([NA], standing for None
      and NaN, or [NaT], the null of a datetime column), a text, a number
      or a timestamp.  Python booleans are integers and are not told
      apart from numbers.
    - Texts are [string]s of ASCII characters.
    - Library functions whose result is fixed only by their documented
      contract ([pd.to_datetime] and [pd.to_numeric] with
      [errors="coerce"], [DataFrame.sort_values] with its default sort
      kind, [pd.read_csv], [pd.read_excel], [strftime], the wall clock)
      are Section variables, constrained by that contract. *)

From Stdlib Require Import String Ascii Bool Arith ZArith QArith Lia.
From Stdlib Require Import List Permutation Sorted.
Import ListNotations.

Local Open Scope string_scope.
Local Open Scope list_scope.

(** ** Cells, exceptions, tables *)

(** Nanoseconds since the epoch, as pandas stores [datetime64[ns]]. *)
Definition Timestamp := Z.

Inductive cell : Type :=
| NA
| Str (s : string)
| Num (x : Q)
| Ts (t : Timestamp)
| NaT.
Arguments Ts t%_Z.

(** A Python computation either returns or raises; the exception is kept
    as its message. *)
Inductive result (A : Type) : Type :=
| Ok (a : A)
| Raise (e : string).
Arguments Ok {A} a.
Arguments Raise {A} e.

Definition bind {A B : Type} (m : result A) (k : A -> result B) : result B :=
  match m with
  | Ok a => k a
  | Raise e => Raise e
  end.

Notation "x <- m ;; k" := (bind m (fun x => k))
  (at level 61, m at next level, right associativity).

(** A [DataFrame]: the length of its index and its labelled columns, in
    order.  pandas allows a label to occur more than once. *)
Record DataFrame : Type := mkDataFrame {
  nrows : nat;
  columns : list (string * list cell)
}.

(** Every column of a table has one cell per row. *)
Definition well_formed (df : DataFrame) : Prop :=
  Forall (fun kv => length (snd kv) = nrows df) (columns df).

(** What a caller may pass where a table is expected. *)
Inductive pyobj : Type :=
| PyNone
| PyOther
| PyDataFrame (df : DataFrame).

Definition REQUIRED_COLS : list string :=
  ["Date"; "Type"; "Category"; "Description"; "Amount"].

Definition CATEGORY_OPTIONS : list string :=
  ["Food"; "Transport"; "Bills"; "Entertainment"; "Other"].

(** ** pandas column operations used by [ensure_schema] *)

Definition has_label (col : string) (kv : string * list cell) : bool :=
  String.eqb (fst kv) col.

Definition labels (df : DataFrame) : list string := map fst (columns df).

(** [col in df.columns] *)
Definition in_columns (col : string) (df : DataFrame) : bool :=
  existsb (has_label col) (columns df).

(** [pd.DataFrame(columns=cols)]: no rows, one empty column per label. *)
Definition DataFrame_columns (cols : list string) : DataFrame :=
  mkDataFrame 0 (map (fun c => (c, [])) cols).

Inductive dtype : Type := datetime64 | float64 | object.

(** The null marker of a dtype: NaT in a datetime column, NaN in a column
    of floats or of objects. *)
Definition null_of (d : dtype) : cell :=
  match d with
  | datetime64 => NaT
  | float64 | object => NA
  end.

(** A series to assign: its dtype and its values.
    [pd.Series(dtype=...)] is the empty series of that dtype. *)
Definition Series_empty (d : dtype) : dtype * list cell := (d, []).

(** Assigning a series to a column aligns it on the index of the table:
    positions the series does not cover are filled with the null marker
    of its dtype. *)
Definition align (n : nat) (s : dtype * list cell) : list cell :=
  firstn n (snd s) ++ repeat (null_of (fst s)) (n - length (snd s)).

(** [df[col] = s]: replaces the column of that label in place, or appends
    a new column when the label is absent. *)
Definition setitem (col : string) (s : dtype * list cell) (df : DataFrame)
    : DataFrame :=
  let s' := align (nrows df) s in
  if in_columns col df
  then mkDataFrame (nrows df)
         (map (fun kv => if has_label col kv then (col, s') else kv) (columns df))
  else mkDataFrame (nrows df) (columns df ++ [(col, s')]).

(** [df[cols]] with a list of labels: for each requested label in turn,
    every column carrying it. *)
Definition getitem_list (cols : list string) (df : DataFrame) : DataFrame :=
  mkDataFrame (nrows df)
    (flat_map (fun c => filter (has_label c) (columns df)) cols).

(** [df[col]] with one label is a series when the label is unique and a
    table when it is repeated. *)
Inductive selection : Type :=
| Series (s : list cell)
| Frame (cols : list (string * list cell)).

Definition getitem (col : string) (df : DataFrame) : result selection :=
  match filter (has_label col) (columns df) with
  | [] => Raise ("KeyError: " ++ col)%string
  | [kv] => Ok (Series (snd kv))
  | kvs => Ok (Frame kvs)
  end.

Definition is_datetime (c : cell) : bool :=
  match c with NaT | Ts _ => true | _ => false end.

Definition is_numeric (c : cell) : bool :=
  match c with NA | Num _ => true | _ => false end.

(** The contract of a column coercion with [errors="coerce"]: it keeps the
    length, every cell of the result has the target type or is the null
    marker, and a column already of that shape is returned as it is. *)
Definition coerces_to (ok : cell -> bool) (f : list cell -> list cell) : Prop :=
  (forall s, length (f s) = length s) /\
  (forall s, forallb ok (f s) = true) /\
  (forall s, forallb ok s = true -> f s = s).

(** The same for a coercion that may refuse a column: [errors="coerce"]
    turns a value that cannot be parsed into the null marker, but
    [pd.to_datetime] still raises on a column as a whole, for instance on
    texts with different UTC offsets.  When it returns, it keeps the
    length and every cell of the result has the target type or is the null
    marker; and a column already of that shape is returned as it is. *)
Definition coerces_or_raises (ok : cell -> bool)
    (f : list cell -> result (list cell)) : Prop :=
  (forall s s', f s = Ok s' -> length s' = length s /\ forallb ok s' = true) /\
  (forall s, forallb ok s = true -> f s = Ok s).

Section Schema.

Variable to_datetime : list cell -> result (list cell).
Variable to_numeric : list cell -> list cell.

(** [pd.to_datetime(x, errors="coerce")]: a table argument is assembled
    from unit columns, which fails on repeated labels. *)
Definition pd_to_datetime (x : selection) : result (dtype * list cell) :=
  match x with
  | Series s => d <- to_datetime s ;; Ok (datetime64, d)
  | Frame _ => Raise "ValueError: cannot assemble with duplicate keys"
  end.

(** [pd.to_numeric(x, errors="coerce")] takes one-dimensional arguments. *)
Definition pd_to_numeric (x : selection) : result (dtype * list cell) :=
  match x with
  | Series s => Ok (float64, to_numeric s)
  | Frame _ => Raise "TypeError: arg must be a list, tuple, 1-d array, or Series"
  end.

(** One turn of the loop of [ensure_schema]. *)
Definition add_missing (df : DataFrame) (col : string) : DataFrame :=
  if negb (in_columns col df) then
    if String.eqb col "Date" then setitem col (Series_empty datetime64) df
    else if String.eqb col "Amount" then setitem col (Series_empty float64) df
    else setitem col (Series_empty object) df
  else df.

Definition ensure_schema (x : pyobj) : result DataFrame :=
  let df := match x with
            | PyDataFrame d => d
            | _ => DataFrame_columns REQUIRED_COLS
            end in
  let df := fold_left add_missing REQUIRED_COLS df in
  let df := getitem_list REQUIRED_COLS df in
  sel <- getitem "Date" df ;;
  d <- pd_to_datetime sel ;;
  let df := setitem "Date" d df in
  sel <- getitem "Amount" df ;;
  a <- pd_to_numeric sel ;;
  let df := setitem "Amount" a df in
  Ok df.

End Schema.

(** ** The transaction store and the session state *)

(** A row of the store.  The store has been through [ensure_schema] at the
    top of every run of the script and every row added later carries a
    timestamp and a float, so its [Date] column holds timestamps or NaT
    and its [Amount] column numbers or NaN ([None] in both cases); the
    three other columns hold arbitrary objects. *)
Record Transaction : Type := mkTransaction {
  Date : option Timestamp;
  Type_ : cell;
  Category : cell;
  Description : cell;
  Amount : option Q
}.

(** An entry of [st.session_state["recurring"]]. *)
Record Recurring : Type := mkRecurring {
  rec_Type : string;
  rec_Category : string;
  rec_Amount : Q;
  rec_Description : string
}.

(** What the script shows to the user. *)
Inductive message : Type :=
| st_success_msg (text : string)
| st_error_msg (text : string).

(** The session state, the messages shown so far and the number of times
    the wall clock has been read. *)
Record Session : Type := mkSession {
  transactions : list Transaction;
  recurring : list Recurring;
  shown : list message;
  clock_reads : nat
}.

(** A statement of the script: it reads and writes the session and either
    returns or raises.  A write made before an exception stays made. *)
Definition Py (A : Type) : Type := Session -> result A * Session.

Definition ret {A : Type} (a : A) : Py A := fun s => (Ok a, s).

Definition bindPy {A B : Type} (m : Py A) (k : A -> Py B) : Py B :=
  fun s =>
    match m s with
    | (Ok a, s') => k a s'
    | (Raise e, s') => (Raise e, s')
    end.

Notation "x <~ m ;; k" := (bindPy m (fun x => k))
  (at level 61, m at next level, right associativity).
Notation "m ;;; k" := (bindPy m (fun _ => k))
  (at level 61, right associativity).

Definition lift {A : Type} (r : result A) : Py A := fun s => (r, s).

(** [try: body except Exception as e: handler(e)] *)
Definition try_except {A : Type} (body : Py A) (handler : string -> Py A) : Py A :=
  fun s =>
    match body s with
    | (Ok a, s') => (Ok a, s')
    | (Raise e, s') => handler e s'
    end.

Fixpoint for_each {A : Type} (xs : list A) (body : A -> Py unit) : Py unit :=
  match xs with
  | [] => ret tt
  | x :: xs' => body x ;;; for_each xs' body
  end.

Definition get_transactions : Py (list Transaction) :=
  fun s => (Ok (transactions s), s).

Definition set_transactions (txs : list Transaction) : Py unit :=
  fun s => (Ok tt, mkSession txs (recurring s) (shown s) (clock_reads s)).

Definition get_recurring : Py (list Recurring) :=
  fun s => (Ok (recurring s), s).

Definition st_success (text : string) : Py unit :=
  fun s => (Ok tt, mkSession (transactions s) (recurring s)
                     (shown s ++ [st_success_msg text]) (clock_reads s)).

Definition st_error (text : string) : Py unit :=
  fun s => (Ok tt, mkSession (transactions s) (recurring s)
                     (shown s ++ [st_error_msg text]) (clock_reads s)).

(** [==] between a cell of an object column and a Python [str]. *)
Definition eq_str (c : cell) (s : string) : bool :=
  match c with
  | Str s' => String.eqb s' s
  | _ => false
  end.

Definition cell_date (c : cell) : option Timestamp :=
  match c with Ts t => Some t | _ => None end.

Definition cell_amount (c : cell) : option Q :=
  match c with Num x => Some x | _ => None end.

(** The rows of a table that has exactly the five required columns. *)
Definition row_at (d ty ca de am : list cell) (i : nat) : Transaction :=
  mkTransaction (cell_date (nth i d NA)) (nth i ty NA) (nth i ca NA)
                (nth i de NA) (cell_amount (nth i am NA)).

Definition rows (n : nat) (d ty ca de am : list cell) : list Transaction :=
  map (row_at d ty ca de am) (seq 0 n).

(** [pd.concat([store, df], ignore_index=True)] for a store with the five
    required columns and a table that comes out of [ensure_schema], whose
    labels are the required ones in order, some of them possibly
    repeated.  With the five labels once each, the rows of [df] follow
    those of the store; a table with a repeated label cannot be aligned
    on the columns of the store. *)
Definition InvalidIndexError : string :=
  "InvalidIndexError: Reindexing only valid with uniquely valued Index objects".

Definition concat (txs : list Transaction) (df : DataFrame)
    : result (list Transaction) :=
  match columns df with
  | [(l1, d); (l2, ty); (l3, ca); (l4, de); (l5, am)] =>
      if list_eq_dec string_dec [l1; l2; l3; l4; l5] REQUIRED_COLS
      then Ok (txs ++ rows (nrows df) d ty ca de am)
      else Raise InvalidIndexError
  | _ => Raise InvalidIndexError
  end.

(** [s.endswith(suffix)] *)
Definition endswith (s suffix : string) : bool :=
  let n := String.length s in
  let k := String.length suffix in
  (k <=? n)%nat && String.eqb (substring (n - k) k s) suffix.

(** ** Import (the [file_uploader] block) *)

Record UploadedFile : Type := mkUploadedFile {
  name : string;
  data : string
}.

Section ImportBlock.

Variable to_datetime : list cell -> result (list cell).
Variable to_numeric : list cell -> list cell.
Variable read_csv : string -> result DataFrame.
Variable read_excel : string -> result DataFrame.

Definition import_body (uploaded : UploadedFile) : Py unit :=
  df_new <~ (if endswith (name uploaded) ".csv"
             then lift (read_csv (data uploaded))
             else lift (read_excel (data uploaded))) ;;
  df_new <~ lift (ensure_schema to_datetime to_numeric (PyDataFrame df_new)) ;;
  txs <~ get_transactions ;;
  txs' <~ lift (concat txs df_new) ;;
  set_transactions txs' ;;;
  st_success "Data Imported!".

Definition import_block (uploaded : option UploadedFile) : Py unit :=
  match uploaded with
  | Some f =>
      try_except (import_body f)
                 (fun e => st_error ("Import failed: " ++ e)%string)
  | None => ret tt
  end.

End ImportBlock.

(** ** Recurring reconciliation *)

Section Recurring.

(** The wall clock: the timestamp returned by the n-th call of
    [datetime.now()]. *)
Variable clock : nat -> Timestamp.

(** [strftime("%B %Y")]: month name and year. *)
Variable strftime_BY : Timestamp -> string.

Definition datetime_now : Py Timestamp :=
  fun s => (Ok (clock (clock_reads s)),
            mkSession (transactions s) (recurring s) (shown s) (S (clock_reads s))).

(** [df["Date"].dt.strftime("%B %Y") == label], row by row; NaT never
    compares equal. *)
Definition in_month (label : string) (t : Transaction) : bool :=
  match Date t with
  | Some d => String.eqb (strftime_BY d) label
  | None => false
  end.

Definition matches (rec : Recurring) (now_month : string) (t : Transaction) : bool :=
  eq_str (Description t) (rec_Description rec)
  && eq_str (Category t) (rec_Category rec)
  && in_month now_month t.

(** [df.empty] *)
Definition empty (txs : list Transaction) : bool :=
  match txs with [] => true | _ => false end.

Definition row_of_rule (now : Timestamp) (rec : Recurring) : Transaction :=
  mkTransaction (Some now) (Str (rec_Type rec)) (Str (rec_Category rec))
                (Str (rec_Description rec)) (Some (rec_Amount rec)).

(** The body of the loop over the recurring rules. *)
Definition apply_rule (now_month : string) (rec : Recurring) : Py unit :=
  txs <~ get_transactions ;;
  let exists_ := if negb (empty txs)
                 then existsb (matches rec now_month) txs
                 else false in
  if negb exists_ then
    now <~ datetime_now ;;
    let new_row := [row_of_rule now rec] in
    txs <~ get_transactions ;;
    set_transactions (txs ++ new_row)
  else ret tt.

Definition apply_recurring : Py unit :=
  now <~ datetime_now ;;
  let now_month := strftime_BY now in
  recs <~ get_recurring ;;
  for_each recs (apply_rule now_month).

End Recurring.

(** ** Editing a row (the [edit_form] block) *)

Definition set_Type (v : cell) (t : Transaction) : Transaction :=
  mkTransaction (Date t) v (Category t) (Description t) (Amount t).
Definition set_Category (v : cell) (t : Transaction) : Transaction :=
  mkTransaction (Date t) (Type_ t) v (Description t) (Amount t).
Definition set_Amount (v : option Q) (t : Transaction) : Transaction :=
  mkTransaction (Date t) (Type_ t) (Category t) (Description t) v.
Definition set_Description (v : cell) (t : Transaction) : Transaction :=
  mkTransaction (Date t) (Type_ t) (Category t) v (Amount t).
Definition set_Date (v : option Timestamp) (t : Transaction) : Transaction :=
  mkTransaction v (Type_ t) (Category t) (Description t) (Amount t).

(** [df.at[i, column] = v] on the table of the session, in place.  The
    index of the store is positional (every non-empty store comes out of a
    [concat] with [ignore_index=True]).  On an absent label pandas would
    enlarge the table and the index would stop being positional; the
    model of the store cannot express that and ends the run there.  The
    [number_input] widget of the edit block keeps the index within
    bounds. *)
Definition at_set (i : nat) (f : Transaction -> Transaction) : Py unit :=
  fun s =>
    match nth_error (transactions s) i with
    | Some t =>
        set_transactions
          (firstn i (transactions s) ++ f t :: skipn (S i) (transactions s)) s
    | None => (Raise "at: label not in index", s)
    end.

(** [list.index(x)] on a list of texts. *)
Fixpoint index (options : list string) (x : cell) : result nat :=
  match options with
  | [] => Raise "ValueError: value is not in list"
  | o :: options' =>
      if eq_str x o then Ok 0%nat
      else (i <- index options' x ;; Ok (S i))
  end.

(** [df.iloc[i]] *)
Definition iloc (txs : list Transaction) (i : nat) : result Transaction :=
  match nth_error txs i with
  | Some t => Ok t
  | None => Raise "IndexError: single positional indexer is out-of-bounds"
  end.

(** [st.number_input(min_value=.., max_value=.., step=1)], without
    [value=]: the widget starts at its minimum, and hands the script the
    number entered when it lies within the bounds and its default, the
    minimum, otherwise. *)
Definition number_input (min_value max_value entered : nat) : nat :=
  if ((min_value <=? entered) && (entered <=? max_value))%nat
  then entered else min_value.

(** [st.number_input(min_value=.., value=..)] on floats, as far as building
    the widget goes: a default below the minimum is refused.  NaN is below
    nothing. *)
Definition StreamlitValueBelowMinError : string :=
  "StreamlitValueBelowMinError: the value is less than the min_value".

Definition number_input_value (min_value : Q) (value : option Q) : result unit :=
  match value with
  | Some v => if Qle_bool min_value v then Ok tt
              else Raise StreamlitValueBelowMinError
  | None => Ok tt
  end.

Section Edit.

Variable clock : nat -> Timestamp.

(** The five assignments made when "Save Changes" is pressed. *)
Definition update_at (edit_index : nat) (e_type e_cat : string) (e_amt : Q)
    (e_desc : string) : Py unit :=
  at_set edit_index (set_Type (Str e_type)) ;;;
  at_set edit_index (set_Category (Str e_cat)) ;;;
  at_set edit_index (set_Amount (Some e_amt)) ;;;
  at_set edit_index (set_Description (Str e_desc)) ;;;
  now <~ datetime_now clock ;;
  at_set edit_index (set_Date (Some now)).

(** The whole block: the widgets are pre-filled from the selected row,
    which raises when its type or category is not one of the options, or
    when its amount is negative.  [e_type], [e_cat], [e_amt] and [e_desc]
    are what the widgets of the form hold when the script reads them. *)
Definition edit_block (entered : nat) (e_type e_cat : string) (e_amt : Q)
    (e_desc : string) (save_edit : bool) : Py unit :=
  txs <~ get_transactions ;;
  if negb (empty txs) then
    let edit_index := number_input 0 (length txs - 1) entered in
    row <~ lift (iloc txs edit_index) ;;
    _ <~ lift (index ["Income"; "Expense"] (Type_ row)) ;;
    _ <~ lift (index CATEGORY_OPTIONS (Category row)) ;;
    _ <~ lift (number_input_value 0 (Amount row)) ;;
    if save_edit then
      update_at edit_index e_type e_cat e_amt e_desc ;;;
      st_success "Transaction Updated!"
    else ret tt
  else ret tt.

End Edit.

(** ** The text filter *)

(** Case folding as [re.IGNORECASE] does it on ASCII characters: the
    letters A to Z go to a to z.  Texts are modelled as far as they are
    ASCII; the case folding of other characters is not modelled. *)
Definition lower (c : ascii) : ascii :=
  let n := nat_of_ascii c in
  if ((65 <=? n) && (n <=? 90))%nat then ascii_of_nat (n + 32) else c.

(** [Series.str.contains(pat, case=False, na=False)] takes [pat] as a
    regular expression ([regex=True] is the default).  The fragment of
    Python's [re] modelled here: a character that is not special stands
    for itself, and a dot for any character but a newline.  Patterns using
    any other special character are outside the fragment. *)
Inductive re_item : Type :=
| ReLit (c : ascii)
| ReAny.

Definition is_special (c : ascii) : bool :=
  existsb (Ascii.eqb c) (list_ascii_of_string ".^$*+?{}[]\|()").

Fixpoint re_compile (pat : string) : option (list re_item) :=
  match pat with
  | EmptyString => Some []
  | String c pat' =>
      match re_compile pat' with
      | Some items =>
          if Ascii.eqb c "." then Some (ReAny :: items)
          else if is_special c then None
          else Some (ReLit c :: items)
      | None => None
      end
  end.

(** One item against one character, ignoring case. *)
Definition item_match (i : re_item) (x : ascii) : bool :=
  match i with
  | ReLit c => Ascii.eqb (lower c) (lower x)
  | ReAny => negb (Ascii.eqb x "010")
  end.

Fixpoint match_here (items : list re_item) (s : string) : bool :=
  match items, s with
  | [], _ => true
  | _ :: _, EmptyString => false
  | i :: items', String x s' => item_match i x && match_here items' s'
  end.

(** [re.search]: a match starting at some position. *)
Fixpoint re_search (items : list re_item) (s : string) : bool :=
  match_here items s
  || match s with
     | EmptyString => false
     | String _ s' => re_search items s'
     end.

(** One cell of [str.contains(.., case=False, na=False)]: a cell that is
    not a text gives NaN, which [na=False] turns into [False]. *)
Definition contains (items : list re_item) (c : cell) : bool :=
  match c with
  | Str s => re_search items s
  | _ => false
  end.

Definition is_text (c : cell) : bool :=
  match c with Str _ => true | _ => false end.

(** [Series.str]: the accessor is there for a column that holds a text.
    For a column without any text pandas goes by the inferred type and
    the dtype of the column (numbers only: AttributeError; nulls only:
    according to the dtype, which a list of cells does not record); such
    columns are outside the model, [None]. *)
Definition str_accessor (col : list cell) : option (list cell) :=
  if existsb is_text col then Some col else None.

(** [if search_text: df = df[df["Description"].str.contains(...)]].
    [None] when the pattern or the column is outside the model. *)
Definition text_filter (search_text : string) (df : list Transaction)
    : option (list Transaction) :=
  if negb (String.eqb search_text "") then
    match str_accessor (map Description df) with
    | Some _ =>
        match re_compile search_text with
        | Some items => Some (filter (fun t => contains items (Description t)) df)
        | None => None
        end
    | None => None
    end
  else Some df.

(** ** Monthly summary and budget check *)




Definition notna (c : cell) : bool :=
  match c with NA | NaT => false | _ => true end.

(** Equality of group keys. *)
Definition cell_eqb (a b : cell) : bool :=
  match a, b with
  | Str s, Str s' => String.eqb s s'
  | Num x, Num y => Qeq_bool x y
  | Ts t, Ts t' => Z.eqb t t'
  | _, _ => false
  end.

Fixpoint unique (ks : list cell) : list cell :=
  match ks with
  | [] => []
  | k :: ks' => k :: filter (fun k' => negb (cell_eqb k k')) (unique ks')
  end.


Inductive budget_status : Type :=
| Over (spent limit : Q)
| Within (spent limit : Q).






Section Monthly.

Variable strftime_BY : Timestamp -> string.



End Monthly.

(** ** The cumulative balance series *)







Section Balance.

Variable sort_values_Date : list Transaction -> list Transaction.


End Balance.

(** ** Notions used in the statements *)

(** The columns of a table carrying a given label. *)
Definition selected (col : string) (df : DataFrame) : list (string * list cell) :=
  filter (has_label col) (columns df).

(** The semantic type of a required column, in the words of the
    specification: a timestamp type for the date, a numeric type for the
    amount; the three others hold objects. *)
Definition required_dtype (col : string) : dtype :=
  if String.eqb col "Date" then datetime64
  else if String.eqb col "Amount" then float64
  else object.

(** The cells a required column starts from: those of the input column of
    that label, or, when the input has no such column, the null markers
    of an empty column of its semantic type. *)
Definition source_column (col : string) (df : DataFrame) : list cell :=
  match selected col df with
  | kv :: _ => snd kv
  | [] => repeat (null_of (required_dtype col)) (nrows df)
  end.

(** No required label is carried by two columns. *)
Definition required_unique (df : DataFrame) : Prop :=
  forall col, In col REQUIRED_COLS -> (length (selected col df) <= 1)%nat.

(** A coercion to timestamps over a given parser of texts, which reads
    in a text an instant and the UTC offset written in it, if any: one
    function meeting the contract of [pd.to_datetime].  A text that is
    not understood gives NaT; a column in which two texts disagree on the
    UTC offset is refused. *)
Definition to_datetime_cell (parse : string -> option (Timestamp * option Z))
    (c : cell) : cell :=
  match c with
  | NA | NaT => NaT
  | Ts t => Ts t
  | Str s => match parse s with Some (t, _) => Ts t | None => NaT end
  | Num x => Ts (Qnum x / Z.pos (Qden x))%Z
  end.

Definition utc_offsets (parse : string -> option (Timestamp * option Z))
    (s : list cell) : list (option Z) :=
  flat_map (fun c => match c with
                     | Str x => match parse x with
                                | Some (_, o) => [o]
                                | None => []
                                end
                     | _ => []
                     end) s.

Definition offset_eqb (a b : option Z) : bool :=
  match a, b with
  | Some x, Some y => (x =? y)%Z
  | None, None => true
  | _, _ => false
  end.

Definition same_offsets (l : list (option Z)) : bool :=
  match l with
  | [] => true
  | o :: l' => forallb (offset_eqb o) l'
  end.

Definition MixedTimezones : string :=
  "ValueError: Mixed timezones detected. Pass utc=True in to_datetime or tz='UTC' in DatetimeIndex to convert to a common timezone.".

Definition to_datetime_by (parse : string -> option (Timestamp * option Z))
    (s : list cell) : result (list cell) :=
  if same_offsets (utc_offsets parse s)
  then Ok (map (to_datetime_cell parse) s)
  else Raise MixedTimezones.

(** Likewise for [pd.to_numeric], which refuses no column. *)
Definition to_numeric_cell (parse : string -> option Q) (c : cell) : cell :=
  match c with
  | NA | NaT => NA
  | Num x => Num x
  | Str s => match parse s with Some x => Num x | None => NA end
  | Ts t => Num (inject_Z t)
  end.

Definition to_numeric_by (parse : string -> option Q) : list cell -> list cell :=
  map (to_numeric_cell parse).

(** Parsers for the examples: one date, written without UTC offset and
    with two different ones, and one number are understood. *)
Definition parse_date_example (s : string) : option (Timestamp * option Z) :=
  if String.eqb s "1970-01-01" then Some (0%Z, None)
  else if String.eqb s "1970-01-01 01:00:00+01:00" then Some (0%Z, Some 3600%Z)
  else if String.eqb s "1970-01-01 02:00:00+02:00" then Some (0%Z, Some 7200%Z)
  else None.

Definition parse_number_example (s : string) : option Q :=
  if String.eqb s "30" then Some 30 else None.

(** A non-empty run of columns that all carry the label [col]. *)
Definition labelled (col : string) (b : list (string * list cell)) : Prop :=
  b <> [] /\ Forall (fun kv => fst kv = col) b.

(** The columns [ensure_schema] selects for a required label: those of
    the input, or one fresh column of null markers. *)
Definition block (col : string) (df : DataFrame) : list (string * list cell) :=
  if in_columns col df then selected col df
  else [(col, repeat (null_of (required_dtype col)) (nrows df))].

(** The two coercions that end [ensure_schema], on their own. *)
Definition coerce_columns (to_datetime : list cell -> result (list cell))
    (to_numeric : list cell -> list cell)
    (df : DataFrame) : result DataFrame :=
  sel <- getitem "Date" df ;;
  d <- pd_to_datetime to_datetime sel ;;
  let df := setitem "Date" d df in
  sel <- getitem "Amount" df ;;
  a <- pd_to_numeric to_numeric sel ;;
  let df := setitem "Amount" a df in
  Ok df.

(** Example tables.  An import with no "Amount" column; a table with two
    "Date" columns; a table with two "Type" columns. *)
Definition no_amount_example : DataFrame :=
  mkDataFrame 2
    [("Date", [Str "1970-01-01"; Str "soon"]);
     ("Type", [Str "Income"; Str "Expense"]);
     ("Category", [Str "Other"; Str "Food"]);
     ("Description", [Str "pay"; Str "lunch"]);
     ("Note", [NA; Str "extra"])].

Definition two_dates_example : DataFrame :=
  mkDataFrame 1
    [("Date", [Str "1970-01-01"]); ("Date", [Str "soon"]); ("Amount", [Num 5])].

Definition two_types_example : DataFrame :=
  mkDataFrame 1
    [("Type", [Str "Income"]); ("Type", [Str "Expense"]); ("Amount", [Num 5])].

(** A table as [pd.read_csv] returns it for a file with the five columns
    and two rows, whose dates are written with different UTC offsets. *)
Definition mixed_zones_example : DataFrame :=
  mkDataFrame 2
    [("Date", [Str "1970-01-01 01:00:00+01:00"; Str "1970-01-01 02:00:00+02:00"]);
     ("Type", [Str "Income"; Str "Expense"]);
     ("Category", [Str "Other"; Str "Food"]);
     ("Description", [Str "pay"; Str "lunch"]);
     ("Amount", [Num 100; Num 30])].

(** The session after the body of the recurring loop has run for one
    rule. *)
Definition rule_step (clock : nat -> Timestamp) (strftime_BY : Timestamp -> string)
    (now_month : string) (s : Session) (rec : Recurring) : Session :=
  if existsb (matches strftime_BY rec now_month) (transactions s) then s
  else mkSession (transactions s ++ [row_of_rule (clock (clock_reads s)) rec])
                 (recurring s) (shown s) (S (clock_reads s)).

(** From the [from]-th reading on, the clock stays within one month. *)
Definition same_period (clock : nat -> Timestamp) (strftime_BY : Timestamp -> string)
    (from : nat) : Prop :=
  forall n, (from <= n)%nat -> strftime_BY (clock n) = strftime_BY (clock from).

(** Example data: a clock that ticks once per reading, a calendar of
    months of thirty ticks, one rule and an empty session. *)
Definition clock_example (n : nat) : Timestamp := Z.of_nat n.

Definition strftime_example (t : Timestamp) : string :=
  if (t <? 30)%Z then "January 1970" else "February 1970".

Definition clock_january (n : nat) : Timestamp := Z.of_nat (Nat.min n 29).

Definition rent : Recurring := mkRecurring "Expense" "Bills" 50 "rent".

Definition session_example : Session := mkSession [] [rent] [] 0.

Definition session_one_row : Session := mkSession [row_of_rule 7%Z rent] [] [] 3.










Definition is_over (st : budget_status) : bool :=
  match st with Over _ _ => true | Within _ _ => false end.

(** Example store for the budget check: one expense on food in January. *)
Definition lunch_30 : Transaction :=
  mkTransaction (Some 1%Z) (Str "Expense") (Str "Food") (Str "lunch") (Some 30).



(** ** Two sorts meeting the contract of [sort_values("Date")] *)





(** Example rows for the balance series. *)
Definition salary_100 : Transaction :=
  mkTransaction (Some 1%Z) (Str "Income") (Str "Other") (Str "") (Some 100).




Definition lunch_no_amount : Transaction :=
  mkTransaction (Some 2%Z) (Str "Expense") (Str "Food") (Str "lunch") None.

(** ** The store as a table *)

Definition date_cell (d : option Timestamp) : cell :=
  match d with Some t => Ts t | None => NaT end.

Definition amount_cell (a : option Q) : cell :=
  match a with Some x => Num x | None => NA end.

(** The table [st.session_state["transactions"]] holds for a store. *)
Definition frame_of (txs : list Transaction) : DataFrame :=
  mkDataFrame (length txs)
    [("Date", map (fun t => date_cell (Date t)) txs);
     ("Type", map Type_ txs);
     ("Category", map Category txs);
     ("Description", map Description txs);
     ("Amount", map (fun t => amount_cell (Amount t)) txs)].

(** ** The entry forms *)

Definition set_recurring (recs : list Recurring) : Py unit :=
  fun s => (Ok tt, mkSession (transactions s) recs (shown s) (clock_reads s)).

Section Forms.

Variable clock : nat -> Timestamp.

(** The "Add Transaction" form, given what its widgets hold. *)
Definition transaction_form (t_type t_cat : string) (t_amt : Q) (desc : string)
    (submit : bool) : Py unit :=
  if submit && negb (Qle_bool t_amt 0) then
    now <~ datetime_now clock ;;
    let new_row := [mkTransaction (Some now) (Str t_type) (Str t_cat) (Str desc)
                      (Some t_amt)] in
    txs <~ get_transactions ;;
    set_transactions (txs ++ new_row) ;;;
    st_success "Transaction Added!"
  else ret tt.

(** The "Add Recurring" form. *)
Definition recurring_form (r_type r_cat : string) (r_amt : Q) (r_desc : string)
    (add_rec : bool) : Py unit :=
  if add_rec && negb (Qle_bool r_amt 0) then
    recs <~ get_recurring ;;
    set_recurring (recs ++ [mkRecurring r_type r_cat r_amt r_desc]) ;;;
    st_success "Recurring Transaction Added!"
  else ret tt.

End Forms.

(** A row the edit block can pre-fill its widgets from: its kind and its
    category are among the options. *)
Definition editable (t : Transaction) : bool :=
  existsb (eq_str (Type_ t)) ["Income"; "Expense"]
  && existsb (eq_str (Category t)) CATEGORY_OPTIONS.

(** A row whose amount the "Amount" widget of the edit block takes as
    its default: no negative number. *)
Definition amount_accepted (t : Transaction) : bool :=
  match Amount t with
  | Some v => Qle_bool 0 v
  | None => true
  end.

(** A rule as the recurring form makes them. *)
Definition rule_from_form (r : Recurring) : bool :=
  existsb (String.eqb (rec_Type r)) ["Income"; "Expense"]
  && existsb (String.eqb (rec_Category r)) CATEGORY_OPTIONS.

(** The rows an import appends for a parsed table whose dates
    [pd.to_datetime] has turned into the column [d]. *)
Definition imported_rows (d : list cell) (to_numeric : list cell -> list cell)
    (df : DataFrame) : list Transaction :=
  rows (nrows df)
    d
    (source_column "Type" df)
    (source_column "Category" df)
    (source_column "Description" df)
    (to_numeric (source_column "Amount" df)).

(** What the reader chosen by the name of the upload returns. *)
Definition parsed (read_csv read_excel : string -> result DataFrame)
    (f : UploadedFile) : result DataFrame :=
  if endswith (name f) ".csv" then read_csv (data f) else read_excel (data f).

(** Example readers and uploads. *)
Definition read_csv_example (_ : string) : result DataFrame := Ok no_amount_example.

Definition read_excel_example (_ : string) : result DataFrame :=
  Ok mixed_zones_example.

Definition upload_csv : UploadedFile := mkUploadedFile "budget.csv" "".

Definition upload_xlsx : UploadedFile := mkUploadedFile "budget.xlsx" "".

(** The list [l] with [x] in place of its element of index [i]. *)
Definition replace_at {A : Type} (i : nat) (x : A) (l : list A) : list A :=
  firstn i l ++ x :: skipn (S i) l.

(** The index the edit block works on. *)
Definition edit_index_of (entered : nat) (txs : list Transaction) : nat :=
  number_input 0 (length txs - 1) entered.

(** A store with a row imported under a category of its own, and a row
    imported with a negative amount. *)
Definition groceries : Transaction :=
  mkTransaction (Some 5%Z) (Str "Expense") (Str "Groceries") (Str "market") (Some 12).

Definition refund : Transaction :=
  mkTransaction (Some 6%Z) (Str "Income") (Str "Food") (Str "refund") (Some (-5)).

Definition session_refund : Session := mkSession [salary_100; refund] [] [] 0.


Definition session_imported : Session := mkSession [salary_100; groceries] [] [] 0.

(** ** The category and month filters *)

(** [Series.isin(values)], for values that are not null (the sidebar
    offers no null choice). *)
Definition isin (values : list cell) (c : cell) : bool :=
  existsb (cell_eqb c) values.

(** [if filter_category: df = df[df["Category"].isin(filter_category)]] *)
Definition category_filter (filter_category : list cell) (df : list Transaction)
    : list Transaction :=
  match filter_category with
  | [] => df
  | _ :: _ => filter (fun t => isin filter_category (Category t)) df
  end.

Section View.

Variable strftime_BY : Timestamp -> string.

(** [if filter_month != "All": df = df[... == filter_month]] *)
Definition month_filter (filter_month : string) (df : list Transaction)
    : list Transaction :=
  if negb (String.eqb filter_month "All")
  then filter (in_month strftime_BY filter_month) df
  else df.

(** The three filters in the order of the script; [None] when the search
    text is outside the modelled patterns. *)
Definition apply_filters (search_text : string) (filter_category : list cell)
    (filter_month : string) (txs : list Transaction) : option (list Transaction) :=
  match text_filter search_text txs with
  | Some df => Some (month_filter filter_month (category_filter filter_category df))
  | None => None
  end.

End View.

(** ** The sidebar: what the filter widgets offer *)

(** [c.isspace()] for an ASCII character. *)
Definition is_space (c : ascii) : bool :=
  let n := nat_of_ascii c in
  ((9 <=? n) && (n <=? 13) || (28 <=? n) && (n <=? 32))%nat.

(** [str(c).strip() == ""]: only a text can be blank. *)
Definition str_blank (c : cell) : bool :=
  match c with
  | Str s => forallb is_space (list_ascii_of_string s)
  | _ => false
  end.

(** [Series.unique()] on texts: first occurrences, in order. *)
Fixpoint unique_str (l : list string) : list string :=
  match l with
  | [] => []
  | x :: l' => x :: filter (fun y => negb (String.eqb x y)) (unique_str l')
  end.

(** [df["Date"].dropna().dt.strftime("%B %Y")] *)
Definition month_labels (strftime_BY : Timestamp -> string)
    (df : list Transaction) : list string :=
  flat_map (fun t => match Date t with
                     | Some d => [strftime_BY d]
                     | None => []
                     end) df.

(** What Python's [sorted] promises when it returns: its argument,
    rearranged.  On values of different types it raises. *)
Definition rearranges {A : Type} (sorted : list A -> result (list A)) : Prop :=
  forall l l', sorted l = Ok l' -> Permutation l l'.

Section Sidebar.

Variable strftime_BY : Timestamp -> string.
Variable sorted : list cell -> result (list cell).
Variable sorted_str : list string -> result (list string).

Definition category_choices (df_base : list Transaction) : result (list cell) :=
  sorted (filter (fun c => negb (str_blank c))
            (unique (filter notna (map Category df_base)))).

Definition month_options (df_base : list Transaction) : result (list string) :=
  months <- sorted_str (unique_str (month_labels strftime_BY df_base)) ;;
  Ok ("All" :: months).

(** The filters the sidebar hands to the view, given what the user typed,
    which of the offered categories were picked and which month option
    was chosen.  With no transaction there is no widget. *)
Definition sidebar_filters (df_base : list Transaction) (typed : string)
    (picked : cell -> bool) (chosen : nat)
    : result (string * list cell * string) :=
  if negb (empty df_base) then
    let search_text := typed in
    choices <- category_choices df_base ;;
    let filter_category := filter picked choices in
    options <- month_options df_base ;;
    let filter_month := nth chosen options "All" in
    Ok (search_text, filter_category, filter_month)
  else Ok ("", [], "All").

End Sidebar.

(** ** The pie chart *)



(** ** Reading a monthly summary *)


(** Example sidebar: a sort of category choices that gives up on anything
    but a list of same-typed values it need not reorder, and a session
    with two months of data. *)
Definition sorted_example (l : list cell) : result (list cell) :=
  match l with
  | [] | [_] => Ok l
  | _ => Raise "TypeError: '<' not supported between instances of 'str' and 'float'"
  end.

Definition sorted_str_example (l : list string) : result (list string) := Ok l.

Definition dinner_february : Transaction :=
  mkTransaction (Some 40%Z) (Str "Expense") (Str "Food") (Str "dinner") (Some 5).

Definition pick_all (_ : cell) : bool := true.

(** ** Sums, for the statements on aggregates *)





(** A row with a positive amount, a rule with a positive amount. *)
Definition positive_amount (t : Transaction) : Prop :=
  exists v, Amount t = Some v /\ 0 < v.

Definition positive_rule (r : Recurring) : Prop := 0 < rec_Amount r.

(** * Properties *)

(** ** Schema enforcement *)

Lemma align_exact (n : nat) (s : dtype * list cell) :
  length (snd s) = n -> align n s = snd s.
Proof.
  intros <-. unfold align.
  rewrite firstn_all, Nat.sub_diag. simpl. apply app_nil_r.
Qed.

Lemma align_length (n : nat) (s : dtype * list cell) : length (align n s) = n.
Proof.
  unfold align. rewrite length_app, length_firstn, repeat_length. lia.
Qed.

Lemma align_nil (n : nat) (d : dtype) : align n (d, []) = repeat (null_of d) n.
Proof.
  unfold align. cbn [fst snd]. rewrite firstn_nil, Nat.sub_0_r. reflexivity.
Qed.

Lemma forallb_repeat (ok : cell -> bool) (c : cell) (n : nat) :
  ok c = true -> forallb ok (repeat c n) = true.
Proof.
  intros H. induction n as [|n IH]; simpl; [reflexivity|].
  now rewrite H, IH.
Qed.

Lemma forallb_firstn (ok : cell -> bool) (n : nat) (s : list cell) :
  forallb ok s = true -> forallb ok (firstn n s) = true.
Proof.
  revert n. induction s as [|c s IH]; intros [|n] H; simpl; try reflexivity.
  simpl in H. apply andb_prop in H as [Hc Hs].
  now rewrite Hc, IH.
Qed.

Lemma forallb_align (ok : cell -> bool) (n : nat) (s : dtype * list cell) :
  ok (null_of (fst s)) = true -> forallb ok (snd s) = true ->
  forallb ok (align n s) = true.
Proof.
  intros Hna Hs. unfold align. rewrite forallb_app.
  now rewrite forallb_firstn, forallb_repeat.
Qed.

Lemma in_columns_selected (col : string) (df : DataFrame) :
  in_columns col df = false <-> selected col df = [].
Proof.
  unfold in_columns, selected.
  induction (columns df) as [|kv l IH]; simpl; [tauto|].
  destruct (has_label col kv); simpl; [|exact IH].
  split; discriminate.
Qed.

(** The loop of [ensure_schema] gives a missing column the null markers
    of the dtype written in the source for it. *)
Lemma add_missing_eq (df : DataFrame) (col : string) :
  add_missing df col =
  if in_columns col df then df
  else mkDataFrame (nrows df)
         (columns df ++ [(col, repeat (null_of (required_dtype col)) (nrows df))]).
Proof.
  unfold add_missing, setitem, Series_empty, required_dtype.
  destruct (in_columns col df) eqn:E; simpl; [reflexivity|].
  rewrite !align_nil.
  destruct (String.eqb col "Date"); [reflexivity|].
  destruct (String.eqb col "Amount"); reflexivity.
Qed.

Lemma has_label_refl (col : string) (s : list cell) : has_label col (col, s) = true.
Proof. unfold has_label. simpl. apply String.eqb_refl. Qed.

(** The loop adds one column of null markers for each label of [cols] the
    table lacks, and leaves the columns it has alone. *)
Lemma loop_selected (cols : list string) :
  forall (df : DataFrame) (col : string),
    nrows (fold_left add_missing cols df) = nrows df /\
    selected col (fold_left add_missing cols df) =
    if negb (in_columns col df) && existsb (String.eqb col) cols
    then [(col, repeat (null_of (required_dtype col)) (nrows df))]
    else selected col df.
Proof.
  induction cols as [|a cols IH]; intros df col; simpl.
  - split; [reflexivity|]. now rewrite andb_false_r.
  - destruct (IH (add_missing df a) col) as [Hn Hs].
    rewrite Hn, Hs, add_missing_eq. clear Hn Hs IH.
    destruct (in_columns a df) eqn:Ea.
    + split; [reflexivity|].
      destruct (String.eqb col a) eqn:Eca; simpl; [|reflexivity].
      apply String.eqb_eq in Eca. subst a. rewrite Ea. reflexivity.
    + simpl. split; [reflexivity|].
      unfold in_columns, selected. simpl.
      rewrite existsb_app, filter_app. simpl.
      unfold has_label at 2 4. simpl.
      rewrite (String.eqb_sym a col).
      fold (in_columns col df). fold (selected col df).
      destruct (String.eqb col a) eqn:Eca; simpl.
      * apply String.eqb_eq in Eca. subst a.
        rewrite orb_true_r. simpl.
        apply in_columns_selected in Ea as Ea'. rewrite Ea'. simpl.
        now rewrite Ea.
      * now rewrite orb_false_r, app_nil_r.
Qed.

Lemma filter_labelled (col col' : string) (b : list (string * list cell)) :
  Forall (fun kv => fst kv = col') b ->
  filter (has_label col) b = if String.eqb col' col then b else [].
Proof.
  induction 1 as [|kv b Hkv _ IH]; simpl.
  - now destruct (String.eqb col' col).
  - unfold has_label at 1. rewrite Hkv, IH.
    now destruct (String.eqb col' col).
Qed.

Lemma map_labelled (col col' : string) (x : string * list cell)
    (b : list (string * list cell)) :
  Forall (fun kv => fst kv = col') b ->
  String.eqb col' col = false ->
  map (fun kv => if has_label col kv then x else kv) b = b.
Proof.
  intros Hb Hne. induction Hb as [|kv b Hkv _ IH]; simpl; [reflexivity|].
  unfold has_label at 1. now rewrite Hkv, Hne, IH.
Qed.

Lemma block_labelled (col : string) (df : DataFrame) : labelled col (block col df).
Proof.
  unfold block, labelled.
  destruct (in_columns col df) eqn:E.
  - split.
    + intros H. apply in_columns_selected in H. congruence.
    + unfold selected. apply Forall_forall. intros kv Hkv.
      apply filter_In in Hkv as [_ Hkv]. now apply String.eqb_eq in Hkv.
  - split; [discriminate|]. now constructor.
Qed.

(** What [ensure_schema] hands to its two coercions: one block of columns
    per required label, in the fixed order. *)
Lemma selected_blocks (df : DataFrame) :
  getitem_list REQUIRED_COLS (fold_left add_missing REQUIRED_COLS df) =
  mkDataFrame (nrows df)
    (block "Date" df ++ block "Type" df ++ block "Category" df
     ++ block "Description" df ++ block "Amount" df).
Proof.
  unfold getitem_list.
  destruct (loop_selected REQUIRED_COLS df "Date") as [Hn _]. rewrite Hn.
  f_equal. cbn [flat_map REQUIRED_COLS].
  fold (selected "Date" (fold_left add_missing REQUIRED_COLS df)).
  fold (selected "Type" (fold_left add_missing REQUIRED_COLS df)).
  fold (selected "Category" (fold_left add_missing REQUIRED_COLS df)).
  fold (selected "Description" (fold_left add_missing REQUIRED_COLS df)).
  fold (selected "Amount" (fold_left add_missing REQUIRED_COLS df)).
  rewrite !(proj2 (loop_selected REQUIRED_COLS df _)).
  cbn [existsb REQUIRED_COLS String.eqb Ascii.eqb Bool.eqb orb].
  rewrite !andb_true_r, app_nil_r. unfold block.
  repeat match goal with
         | |- context [in_columns ?c df] => destruct (in_columns c df)
         end; reflexivity.
Qed.

Lemma ensure_schema_steps (to_datetime : list cell -> result (list cell))
    (to_numeric : list cell -> list cell) (x : pyobj) :
  ensure_schema to_datetime to_numeric x =
  coerce_columns to_datetime to_numeric
    (getitem_list REQUIRED_COLS
       (fold_left add_missing REQUIRED_COLS
          match x with
          | PyDataFrame d => d
          | _ => DataFrame_columns REQUIRED_COLS
          end)).
Proof. reflexivity. Qed.

Section CoerceColumns.

Variable to_datetime : list cell -> result (list cell).
Variable to_numeric : list cell -> list cell.
Variable n : nat.
Variables bD bT bC bDe bA : list (string * list cell).
Hypothesis HD : labelled "Date" bD.
Hypothesis HT : labelled "Type" bT.
Hypothesis HC : labelled "Category" bC.
Hypothesis HDe : labelled "Description" bDe.
Hypothesis HA : labelled "Amount" bA.

Let F := mkDataFrame n (bD ++ bT ++ bC ++ bDe ++ bA).

(** Selecting [col] among the blocks that do not start the table. *)
Ltac select_tail col :=
  rewrite !filter_app;
  rewrite (filter_labelled col "Type" bT) by apply HT;
  rewrite (filter_labelled col "Category" bC) by apply HC;
  rewrite (filter_labelled col "Description" bDe) by apply HDe;
  rewrite (filter_labelled col "Amount" bA) by apply HA.

(** An assignment to [col] leaves the three object blocks alone. *)
Ltac keep_objects col :=
  rewrite !map_app;
  rewrite (map_labelled col "Type" _ bT) by (apply HT || reflexivity);
  rewrite (map_labelled col "Category" _ bC) by (apply HC || reflexivity);
  rewrite (map_labelled col "Description" _ bDe) by (apply HDe || reflexivity).

Lemma selected_shaped (col : string) :
  selected col F =
  (if String.eqb "Date" col then bD else [])
  ++ (if String.eqb "Type" col then bT else [])
  ++ (if String.eqb "Category" col then bC else [])
  ++ (if String.eqb "Description" col then bDe else [])
  ++ (if String.eqb "Amount" col then bA else []).
Proof.
  unfold selected, F. cbn [columns]. select_tail col.
  rewrite (filter_labelled col "Date" bD) by apply HD.
  reflexivity.
Qed.

Lemma in_columns_Date : in_columns "Date" F = true.
Proof.
  destruct (in_columns "Date" F) eqn:E; [reflexivity|].
  apply in_columns_selected in E. rewrite selected_shaped in E.
  cbn [String.eqb Ascii.eqb Bool.eqb] in E. rewrite !app_nil_r in E.
  destruct HD as [Hne _]. contradiction.
Qed.

(** The table after [df["Date"] = d], when one column carries the date. *)
Lemma setitem_Date (kd : string * list cell) (d : dtype * list cell) :
  bD = [kd] ->
  setitem "Date" d F
  = mkDataFrame n ([("Date", align n d)] ++ bT ++ bC ++ bDe ++ bA).
Proof.
  intros ED. unfold setitem. rewrite in_columns_Date.
  unfold F. cbn [nrows columns]. f_equal.
  keep_objects "Date".
  rewrite (map_labelled "Date" "Amount" _ bA) by (apply HA || reflexivity).
  rewrite ED. destruct HD as [_ HD']. rewrite ED in HD'.
  inversion HD' as [|? ? Hk _]. cbn [map]. unfold has_label. rewrite Hk.
  reflexivity.
Qed.

Lemma selected_Amount_after (d : list cell) :
  filter (has_label "Amount")
    (columns (mkDataFrame n ([("Date", d)] ++ bT ++ bC ++ bDe ++ bA)))
  = bA.
Proof. cbn [columns]. select_tail "Amount". reflexivity. Qed.

(** With one column for the date and one for the amount, the outcome is
    that of [pd.to_datetime] on the date column. *)
Lemma coerce_shaped (kd ka : string * list cell) :
  bD = [kd] -> bA = [ka] ->
  coerce_columns to_datetime to_numeric F =
  (d <- to_datetime (snd kd) ;;
   Ok (mkDataFrame n
         ([("Date", align n (datetime64, d))] ++ bT ++ bC ++ bDe
          ++ [("Amount", align n (float64, to_numeric (snd ka)))]))).
Proof.
  intros ED EA. unfold coerce_columns, getitem.
  fold (selected "Date" F). rewrite selected_shaped.
  cbn [String.eqb Ascii.eqb Bool.eqb].
  rewrite !app_nil_r, ED. cbn [bind pd_to_datetime].
  destruct (to_datetime (snd kd)) as [d0|e]; [|reflexivity].
  cbn [bind].
  rewrite (setitem_Date kd _ ED).
  set (d := align n (datetime64, d0)).
  rewrite selected_Amount_after, EA. cbn [bind pd_to_numeric]. f_equal.
  unfold setitem.
  assert (Hin : in_columns "Amount"
                  (mkDataFrame n ([("Date", d)] ++ bT ++ bC ++ bDe ++ bA)) = true).
  { destruct (in_columns "Amount" _) eqn:E; [reflexivity|].
    apply in_columns_selected in E. unfold selected in E.
    rewrite selected_Amount_after, EA in E. discriminate. }
  rewrite EA in Hin. rewrite Hin. cbn [nrows columns]. f_equal.
  keep_objects "Amount".
  destruct HA as [_ HA']. rewrite EA in HA'.
  inversion HA' as [|? ? Hk _]. cbn [map]. unfold has_label. rewrite Hk.
  reflexivity.
Qed.

(** The coercions go through only when the date and the amount are each
    carried by one column. *)
Lemma coerce_shaped_inv (out : DataFrame) :
  coerce_columns to_datetime to_numeric F = Ok out ->
  exists kd ka, bD = [kd] /\ bA = [ka].
Proof.
  assert (HcD : (exists kd, bD = [kd]) \/ (exists k k' r, bD = k :: k' :: r)).
  { destruct HD as [Hne _]. destruct bD as [|k [|k' r]]; eauto. congruence. }
  assert (HcA : (exists ka, bA = [ka]) \/ (exists k k' r, bA = k :: k' :: r)).
  { destruct HA as [Hne _]. destruct bA as [|k [|k' r]]; eauto. congruence. }
  destruct HcD as [[kd ED]|(k & k' & r & ED)].
  - destruct HcA as [[ka EA]|(k & k' & r & EA)]; [intros _; now exists kd, ka|].
    unfold coerce_columns, getitem.
    fold (selected "Date" F). rewrite selected_shaped.
    cbn [String.eqb Ascii.eqb Bool.eqb].
    rewrite !app_nil_r, ED. cbn [bind pd_to_datetime].
    destruct (to_datetime (snd kd)) as [d0|e]; [|discriminate].
    cbn [bind].
    rewrite (setitem_Date kd _ ED), selected_Amount_after, EA.
    cbn [bind pd_to_numeric]. discriminate.
  - unfold coerce_columns, getitem.
    fold (selected "Date" F). rewrite selected_shaped.
    cbn [String.eqb Ascii.eqb Bool.eqb].
    rewrite !app_nil_r, ED. cbn [bind pd_to_datetime]. discriminate.
Qed.

Lemma block_shaped (col : string) :
  selected col F <> [] -> block col F = selected col F.
Proof.
  intros H. unfold block.
  destruct (in_columns col F) eqn:E; [reflexivity|].
  now apply in_columns_selected in E.
Qed.

End CoerceColumns.

Lemma coerce_fixed (ok : cell -> bool) (f : list cell -> list cell)
    (n : nat) (d : dtype) (s : list cell) :
  coerces_to ok f -> ok (null_of d) = true ->
  align n (d, f (align n (d, f s))) = align n (d, f s).
Proof.
  intros (Hlen & Hok & Hfix) Hna.
  rewrite Hfix by (apply forallb_align; [exact Hna | apply Hok]).
  apply align_exact, align_length.
Qed.

(** A date column that went through [pd.to_datetime] goes through again,
    unchanged. *)
Lemma coerce_again (f : list cell -> result (list cell))
    (n : nat) (s d : list cell) :
  coerces_or_raises is_datetime f ->
  f s = Ok d ->
  f (align n (datetime64, d)) = Ok (align n (datetime64, d)).
Proof.
  intros (Hok & Hfix) E. apply Hfix.
  apply forallb_align; [reflexivity|]. now destruct (Hok s d E).
Qed.

Lemma singleton_labelled (col : string) (s : list cell) : labelled col [(col, s)].
Proof. split; [discriminate | now constructor]. Qed.

(** C10. Applied to [None], or to any value that is not a table,
    [ensure_schema] does not raise: it returns the empty table with the five
    required columns, in order. *)
Theorem ensure_schema_not_a_table
    (to_datetime : list cell -> result (list cell))
    (to_numeric : list cell -> list cell) (x : pyobj) :
  coerces_or_raises is_datetime to_datetime ->
  coerces_to is_numeric to_numeric ->
  (forall df, x <> PyDataFrame df) ->
  ensure_schema to_datetime to_numeric x = Ok (DataFrame_columns REQUIRED_COLS)
  /\ nrows (DataFrame_columns REQUIRED_COLS) = 0%nat
  /\ labels (DataFrame_columns REQUIRED_COLS) = REQUIRED_COLS.
Proof.
  intros (_ & HfixD) (HlenA & _) Hx.
  split; [|split; reflexivity].
  assert (E : ensure_schema to_datetime to_numeric x =
              ensure_schema to_datetime to_numeric PyNone).
  { destruct x; try reflexivity. now destruct (Hx df). }
  rewrite E, ensure_schema_steps, selected_blocks.
  change (block "Date" (DataFrame_columns REQUIRED_COLS)) with [("Date", @nil cell)].
  change (block "Type" (DataFrame_columns REQUIRED_COLS)) with [("Type", @nil cell)].
  change (block "Category" (DataFrame_columns REQUIRED_COLS))
    with [("Category", @nil cell)].
  change (block "Description" (DataFrame_columns REQUIRED_COLS))
    with [("Description", @nil cell)].
  change (block "Amount" (DataFrame_columns REQUIRED_COLS)) with [("Amount", @nil cell)].
  rewrite (coerce_shaped to_datetime to_numeric _ _ _ _ _ _
             (singleton_labelled _ _) (singleton_labelled _ _)
             (singleton_labelled _ _) (singleton_labelled _ _)
             (singleton_labelled _ _) _ _ eq_refl eq_refl).
  cbn [snd nrows DataFrame_columns].
  rewrite (HfixD [] eq_refl). cbn [bind].
  specialize (HlenA []).
  destruct (to_numeric []); [|discriminate].
  reflexivity.
Qed.

(** C2. Schema enforcement is idempotent: enforcing the schema on the
    result of [ensure_schema] gives that result again, and when the first
    application raises so does the composition. *)
Theorem ensure_schema_idempotent
    (to_datetime : list cell -> result (list cell))
    (to_numeric : list cell -> list cell) (x : pyobj) :
  coerces_or_raises is_datetime to_datetime ->
  coerces_to is_numeric to_numeric ->
  (out <- ensure_schema to_datetime to_numeric x ;;
   ensure_schema to_datetime to_numeric (PyDataFrame out))
  = ensure_schema to_datetime to_numeric x.
Proof.
  intros HD HA.
  destruct (ensure_schema to_datetime to_numeric x) as [out|e] eqn:E;
    [|reflexivity].
  cbn [bind].
  rewrite ensure_schema_steps, selected_blocks in E.
  set (df := match x with
             | PyDataFrame d => d
             | _ => DataFrame_columns REQUIRED_COLS
             end) in E.
  pose proof (block_labelled "Date" df) as LD.
  pose proof (block_labelled "Type" df) as LT.
  pose proof (block_labelled "Category" df) as LC.
  pose proof (block_labelled "Description" df) as LDe.
  pose proof (block_labelled "Amount" df) as LA.
  destruct (coerce_shaped_inv to_datetime to_numeric _ _ _ _ _ _ LD LT LC LDe LA _ E)
    as (kd & ka & ED & EA).
  rewrite (coerce_shaped to_datetime to_numeric _ _ _ _ _ _ LD LT LC LDe LA kd ka ED EA)
    in E.
  destruct (to_datetime (snd kd)) as [d0|e] eqn:Ed; [|discriminate E].
  cbn [bind] in E. injection E as <-.
  set (d := align (nrows df) (datetime64, d0)).
  set (a := align (nrows df) (float64, to_numeric (snd ka))).
  pose proof (singleton_labelled "Date" d) as LD'.
  pose proof (singleton_labelled "Amount" a) as LA'.
  rewrite ensure_schema_steps, selected_blocks. cbn [nrows].
  change (("Date", d) :: block "Type" df ++ block "Category" df
          ++ block "Description" df ++ [("Amount", a)])
    with ([("Date", d)] ++ block "Type" df ++ block "Category" df
          ++ block "Description" df ++ [("Amount", a)]).
  rewrite !(block_shaped (nrows df) [("Date", d)] _ _ _ [("Amount", a)]);
    rewrite !(selected_shaped _ _ _ _ _ _ LD' LT LC LDe LA');
    cbn [String.eqb Ascii.eqb Bool.eqb app];
    rewrite ?app_nil_r;
    try (apply LT || apply LC || apply LDe || discriminate).
  rewrite (coerce_shaped to_datetime to_numeric _ _ _ _ _ _ LD' LT LC LDe LA'
             _ _ eq_refl eq_refl).
  cbn [snd]. unfold d, a.
  rewrite (coerce_again to_datetime (nrows df) (snd kd) d0 HD Ed). cbn [bind].
  rewrite (align_exact (nrows df) (datetime64, align (nrows df) (datetime64, d0)))
    by apply align_length.
  rewrite (coerce_fixed is_numeric to_numeric) by (exact HA || reflexivity).
  reflexivity.
Qed.

Lemma block_unique (df : DataFrame) (col : string) :
  (length (selected col df) <= 1)%nat ->
  block col df = [(col, source_column col df)].
Proof.
  intros Hu. unfold block, source_column.
  destruct (in_columns col df) eqn:E.
  - assert (Hl : Forall (fun kv => fst kv = col) (selected col df)).
    { apply Forall_forall. intros kv Hkv. unfold selected in Hkv.
      apply filter_In in Hkv as [_ Hkv]. now apply String.eqb_eq in Hkv. }
    destruct (selected col df) as [|kv [|kv' r]] eqn:Es.
    + apply in_columns_selected in Es. congruence.
    + inversion Hl as [|? ? Hk _]. destruct kv as [k s]. simpl in *. now subst k.
    + simpl in Hu. lia.
  - apply in_columns_selected in E. now rewrite E.
Qed.

Lemma source_column_length (df : DataFrame) (col : string) :
  well_formed df -> length (source_column col df) = nrows df.
Proof.
  intros Hwf. unfold source_column.
  destruct (selected col df) as [|kv r] eqn:Es.
  - apply repeat_length.
  - unfold well_formed in Hwf. rewrite Forall_forall in Hwf. apply Hwf.
    assert (Hin : In kv (selected col df)) by (rewrite Es; now left).
    unfold selected in Hin. now apply filter_In in Hin.
Qed.

(** [ensure_schema] on a table in which each required label is carried by
    one column at most: the outcome is that of [pd.to_datetime] on the
    date column. *)
Lemma ensure_schema_unique_run
    (to_datetime : list cell -> result (list cell))
    (to_numeric : list cell -> list cell) (df : DataFrame) :
  coerces_or_raises is_datetime to_datetime ->
  coerces_to is_numeric to_numeric ->
  well_formed df ->
  required_unique df ->
  ensure_schema to_datetime to_numeric (PyDataFrame df)
  = (d <- to_datetime (source_column "Date" df) ;;
     Ok (mkDataFrame (nrows df)
           [("Date", d);
            ("Type", source_column "Type" df);
            ("Category", source_column "Category" df);
            ("Description", source_column "Description" df);
            ("Amount", to_numeric (source_column "Amount" df))])).
Proof.
  intros (HokD & _) (HlenA & _) Hwf Hu.
  rewrite ensure_schema_steps, selected_blocks.
  rewrite !block_unique by (apply Hu; cbn; tauto).
  rewrite (coerce_shaped to_datetime to_numeric _ _ _ _ _ _
             (singleton_labelled _ _) (singleton_labelled _ _)
             (singleton_labelled _ _) (singleton_labelled _ _)
             (singleton_labelled _ _) _ _ eq_refl eq_refl).
  cbn [snd].
  destruct (to_datetime (source_column "Date" df)) as [d|e] eqn:Ed; [|reflexivity].
  cbn [bind].
  rewrite !align_exact; [reflexivity| |].
  - cbn [snd]. rewrite HlenA. now apply source_column_length.
  - cbn [snd]. destruct (HokD _ _ Ed) as [Hl _]. rewrite Hl.
    now apply source_column_length.
Qed.


Lemma to_datetime_cell_typed (parse : string -> option (Timestamp * option Z))
    (s : list cell) :
  forallb is_datetime (map (to_datetime_cell parse) s) = true.
Proof.
  induction s as [|c s IH]; simpl; [reflexivity|].
  rewrite IH, andb_true_r. destruct c as [|x| | |]; simpl; try reflexivity.
  now destruct (parse x) as [[t o]|].
Qed.

Lemma to_datetime_by_contract (parse : string -> option (Timestamp * option Z)) :
  coerces_or_raises is_datetime (to_datetime_by parse).
Proof.
  unfold to_datetime_by. split.
  - intros s s' H.
    destruct (same_offsets (utc_offsets parse s)); [|discriminate].
    injection H as <-. split; [apply length_map | apply to_datetime_cell_typed].
  - intros s H.
    assert (Hno : utc_offsets parse s = []).
    { induction s as [|c s IH]; [reflexivity|]. cbn [forallb] in H.
      apply andb_prop in H as [Hc Hs]. cbn [utc_offsets flat_map].
      fold (utc_offsets parse s). rewrite (IH Hs).
      destruct c; try reflexivity; discriminate. }
    rewrite Hno. cbn [same_offsets]. f_equal.
    induction s as [|c s IH]; [reflexivity|]. cbn [forallb] in H.
    apply andb_prop in H as [Hc Hs]. cbn [map].
    rewrite IH by (try assumption;
                   cbn [utc_offsets flat_map] in Hno;
                   now apply app_eq_nil in Hno).
    destruct c; simpl in *; try reflexivity; discriminate.
Qed.

Lemma to_numeric_by_contract (parse : string -> option Q) :
  coerces_to is_numeric (to_numeric_by parse).
Proof.
  unfold to_numeric_by. repeat split.
  - intros s. apply length_map.
  - intros s. induction s as [|c s IH]; simpl; [reflexivity|].
    rewrite IH, andb_true_r. destruct c as [|x| | |]; simpl; try reflexivity.
    now destruct (parse x).
  - intros s. induction s as [|c s IH]; simpl; [reflexivity|].
    intros H. apply andb_prop in H as [Hc Hs]. rewrite (IH Hs).
    destruct c; simpl in *; try reflexivity; discriminate.
Qed.

Lemma ensure_schema_not_a_table_witness :
  coerces_or_raises is_datetime (to_datetime_by parse_date_example)
  /\ coerces_to is_numeric (to_numeric_by parse_number_example)
  /\ (forall df, PyNone <> PyDataFrame df)
  /\ ensure_schema (to_datetime_by parse_date_example)
       (to_numeric_by parse_number_example) PyNone
     = Ok (DataFrame_columns REQUIRED_COLS).
Proof.
  split; [apply to_datetime_by_contract|].
  split; [apply to_numeric_by_contract|].
  split; [discriminate|].
  apply (ensure_schema_not_a_table
           (to_datetime_by parse_date_example)
           (to_numeric_by parse_number_example) PyNone
           (to_datetime_by_contract _) (to_numeric_by_contract _)).
  discriminate.
Defined.

Lemma ensure_schema_idempotent_witness :
  coerces_or_raises is_datetime (to_datetime_by parse_date_example)
  /\ coerces_to is_numeric (to_numeric_by parse_number_example)
  /\ (out <- ensure_schema (to_datetime_by parse_date_example)
               (to_numeric_by parse_number_example)
               (PyDataFrame no_amount_example) ;;
      ensure_schema (to_datetime_by parse_date_example)
        (to_numeric_by parse_number_example) (PyDataFrame out))
     = ensure_schema (to_datetime_by parse_date_example)
         (to_numeric_by parse_number_example) (PyDataFrame no_amount_example).
Proof.
  split; [apply to_datetime_by_contract|].
  split; [apply to_numeric_by_contract|].
  exact (ensure_schema_idempotent
           (to_datetime_by parse_date_example)
           (to_numeric_by parse_number_example)
           (PyDataFrame no_amount_example)
           (to_datetime_by_contract _) (to_numeric_by_contract _)).
Defined.

Lemma no_amount_example_well_formed : well_formed no_amount_example.
Proof. repeat constructor. Qed.

Lemma no_amount_example_unique : required_unique no_amount_example.
Proof.
  intros col Hcol. cbn in Hcol.
  destruct Hcol as [<-|[<-|[<-|[<-|[<-|[]]]]]]; vm_compute; lia.
Qed.





(** Why the labels are asked to be distinct: a table with two "Date"
    columns makes [ensure_schema] raise, and one with two "Type" columns
    comes back with six columns.  The readers of pandas rename repeated
    labels, and so never return such a table. *)
Lemma ensure_schema_repeated_label :
  well_formed two_dates_example
  /\ ensure_schema (to_datetime_by parse_date_example)
       (to_numeric_by parse_number_example) (PyDataFrame two_dates_example)
     = Raise "ValueError: cannot assemble with duplicate keys"
  /\ well_formed two_types_example
  /\ exists out,
       ensure_schema (to_datetime_by parse_date_example)
         (to_numeric_by parse_number_example) (PyDataFrame two_types_example)
       = Ok out
       /\ labels out = ["Date"; "Type"; "Type"; "Category"; "Description"; "Amount"].
Proof.
  split; [repeat constructor|].
  split; [reflexivity|].
  split; [repeat constructor|].
  eexists. split; reflexivity.
Qed.

(** ** Import *)

(** C4. The import block never lets an exception out.  When reading the
    upload fails, the store is left as it was and the user is shown the
    failure.  More generally the block ends in one of two ways: some step
    failed (reading, schema enforcement or concatenation), the store is
    unchanged and an error is shown; or every step succeeded and all the
    rows of the enforced table were appended at once. *)
Theorem import_failure_leaves_store
    (to_datetime : list cell -> result (list cell))
    (to_numeric : list cell -> list cell)
    (read_csv read_excel : string -> result DataFrame)
    (f : UploadedFile) (s : Session) :
  let parsed := if endswith (name f) ".csv"
                then read_csv (data f) else read_excel (data f) in
  exists s',
    import_block to_datetime to_numeric read_csv read_excel (Some f) s = (Ok tt, s')
    /\ (forall e, parsed = Raise e ->
        transactions s' = transactions s
        /\ shown s' = shown s ++ [st_error_msg ("Import failed: " ++ e)%string])
    /\ ((transactions s' = transactions s
         /\ exists e,
              shown s' = shown s ++ [st_error_msg ("Import failed: " ++ e)%string])
        \/ (exists df out,
              parsed = Ok df
              /\ ensure_schema to_datetime to_numeric (PyDataFrame df) = Ok out
              /\ concat (transactions s) out = Ok (transactions s')
              /\ shown s' = shown s ++ [st_success_msg "Data Imported!"])).
Proof.
  intros parsed. unfold import_block, try_except, import_body, bindPy.
  fold parsed.
  assert (E : (if endswith (name f) ".csv"
               then lift (read_csv (data f)) else lift (read_excel (data f))) s
              = (parsed, s)).
  { unfold parsed. now destruct (endswith (name f) ".csv"). }
  rewrite E. clear E.
  destruct parsed as [df|e] eqn:Ep.
  - unfold lift at 1.
    destruct (ensure_schema to_datetime to_numeric (PyDataFrame df)) as [out|e] eqn:Ee.
    + unfold get_transactions, lift.
      destruct (concat (transactions s) out) as [txs'|e] eqn:Ec.
      * eexists. split; [reflexivity|]. cbn [transactions shown].
        split; [discriminate|]. right. exists df, out. auto.
      * eexists. split; [reflexivity|]. cbn [transactions shown].
        split; [discriminate|]. left. eauto.
    + eexists. split; [reflexivity|]. cbn [transactions shown].
      split; [discriminate|]. left. eauto.
  - eexists. split; [reflexivity|]. cbn [transactions shown].
    split; [|left; eauto].
    intros e' He'. injection He' as <-. auto.
Qed.

(** ** Recurring reconciliation *)

Section RecurringFacts.

Variable clock : nat -> Timestamp.
Variable strftime_BY : Timestamp -> string.

Lemma apply_rule_run (now_month : string) (rec : Recurring) (s : Session) :
  apply_rule clock strftime_BY now_month rec s
  = (Ok tt, rule_step clock strftime_BY now_month s rec).
Proof.
  unfold apply_rule, rule_step, bindPy, get_transactions.
  destruct s as [txs recs sh k]. cbn [transactions recurring shown clock_reads].
  destruct txs as [|t txs]; [reflexivity|].
  cbn [empty negb].
  destruct (existsb (matches strftime_BY rec now_month) (t :: txs)); reflexivity.
Qed.

Lemma for_each_run (now_month : string) (recs : list Recurring) :
  forall s, for_each recs (apply_rule clock strftime_BY now_month) s
            = (Ok tt, fold_left (rule_step clock strftime_BY now_month) recs s).
Proof.
  induction recs as [|rec recs IH]; intros s; [reflexivity|].
  cbn [for_each fold_left]. unfold bindPy. now rewrite apply_rule_run, IH.
Qed.

Lemma apply_recurring_run (s : Session) :
  apply_recurring clock strftime_BY s =
  (Ok tt,
   fold_left (rule_step clock strftime_BY (strftime_BY (clock (clock_reads s))))
     (recurring s)
     (mkSession (transactions s) (recurring s) (shown s) (S (clock_reads s)))).
Proof.
  unfold apply_recurring, bindPy, datetime_now, get_recurring.
  cbn [recurring]. apply for_each_run.
Qed.

(** Two rules that a row of one matches are the same to the search. *)
Lemma matches_row_of_rule (label : string) (rec rec0 : Recurring) (now : Timestamp) :
  matches strftime_BY rec0 label (row_of_rule now rec) = true ->
  forall t, matches strftime_BY rec0 label t = matches strftime_BY rec label t.
Proof.
  unfold matches, row_of_rule. cbn [Description Category eq_str].
  intros H t.
  apply andb_prop in H as [H _]. apply andb_prop in H as [Hd Hc].
  apply String.eqb_eq in Hd, Hc. now rewrite Hd, Hc.
Qed.

Lemma matches_own_row (rec : Recurring) (now : Timestamp) :
  matches strftime_BY rec (strftime_BY now) (row_of_rule now rec) = true.
Proof.
  unfold matches, row_of_rule, in_month. cbn [Description Category Date eq_str].
  now rewrite !String.eqb_refl.
Qed.

Lemma existsb_matches_ext (label : string) (rec rec0 : Recurring)
    (txs : list Transaction) :
  (forall t, matches strftime_BY rec0 label t = matches strftime_BY rec label t) ->
  existsb (matches strftime_BY rec0 label) txs
  = existsb (matches strftime_BY rec label) txs.
Proof.
  intros H. induction txs as [|t txs IH]; simpl; [reflexivity|].
  now rewrite H, IH.
Qed.

Lemma rule_step_cases (label : string) (s : Session) (rec : Recurring) :
  (existsb (matches strftime_BY rec label) (transactions s) = true
   /\ rule_step clock strftime_BY label s rec = s)
  \/ (existsb (matches strftime_BY rec label) (transactions s) = false
      /\ rule_step clock strftime_BY label s rec =
         mkSession (transactions s ++ [row_of_rule (clock (clock_reads s)) rec])
                   (recurring s) (shown s) (S (clock_reads s))).
Proof.
  unfold rule_step.
  destruct (existsb (matches strftime_BY rec label) (transactions s)); auto.
Qed.

(** What one pass over the rules adds to the store. *)
Lemma fold_rules (label : string) (rules : list Recurring) :
  forall s,
    let s' := fold_left (rule_step clock strftime_BY label) rules s in
    recurring s' = recurring s /\ shown s' = shown s
    /\ (clock_reads s <= clock_reads s')%nat
    /\ exists added,
         transactions s' = transactions s ++ added
         /\ (length added <= length rules)%nat
         /\ (forall rec0,
              (length (filter (matches strftime_BY rec0 label) added) <= 1)%nat)
         /\ (forall rec0,
              existsb (matches strftime_BY rec0 label) (transactions s) = true ->
              filter (matches strftime_BY rec0 label) added = []).
Proof.
  induction rules as [|rec rules IH]; intros s; cbn [fold_left].
  - repeat split; try lia. exists []. rewrite app_nil_r.
    repeat split; simpl; auto.
  - specialize (IH (rule_step clock strftime_BY label s rec)).
    cbv zeta in IH. destruct IH as (Hr & Hs & Hk & added & Ht & Hlen & Hone & Hnone).
    destruct (rule_step_cases label s rec) as [[Ex E]|[Ex E]];
      rewrite E in Hr, Hs, Hk, Ht, Hnone |- *; clear E.
    + split; [assumption|]. split; [assumption|]. split; [assumption|].
      exists added. repeat split; try assumption. simpl. lia.
    + cbn [transactions recurring shown clock_reads] in *.
      split; [assumption|]. split; [assumption|]. split; [lia|].
      exists (row_of_rule (clock (clock_reads s)) rec :: added).
      rewrite Ht, <- app_assoc. split; [reflexivity|].
      split; [simpl; lia|].
      split.
      * intros rec0. cbn [filter].
        destruct (matches strftime_BY rec0 label
                    (row_of_rule (clock (clock_reads s)) rec)) eqn:Em; [|apply Hone].
        rewrite Hnone; [simpl; lia|].
        rewrite existsb_app. simpl. rewrite Em. apply orb_true_iff. right. reflexivity.
      * intros rec0 Hex. cbn [filter].
        destruct (matches strftime_BY rec0 label
                    (row_of_rule (clock (clock_reads s)) rec)) eqn:Em.
        -- rewrite (existsb_matches_ext label rec rec0) in Hex
             by (now apply (matches_row_of_rule label rec rec0 (clock (clock_reads s)))).
           congruence.
        -- apply Hnone. rewrite existsb_app, Hex. reflexivity.
Qed.

Lemma fold_rules_fixed (label : string) (rules : list Recurring) (s : Session) :
  (forall rec, In rec rules ->
               existsb (matches strftime_BY rec label) (transactions s) = true) ->
  fold_left (rule_step clock strftime_BY label) rules s = s.
Proof.
  induction rules as [|rec rules IH]; intros H; cbn [fold_left]; [reflexivity|].
  destruct (rule_step_cases label s rec) as [[_ E]|[Ex _]].
  - rewrite E. apply IH. intros r Hr. apply H. now right.
  - rewrite H in Ex by now left. discriminate.
Qed.

(** After a pass made within one month, every rule finds a row. *)
Lemma fold_rules_covered (label : string) (rules : list Recurring) :
  forall s,
    (forall n, (clock_reads s <= n)%nat -> strftime_BY (clock n) = label) ->
    forall rec, In rec rules ->
      existsb (matches strftime_BY rec label)
        (transactions (fold_left (rule_step clock strftime_BY label) rules s)) = true.
Proof.
  induction rules as [|a rules IH]; intros s Hp rec Hin; [destruct Hin|].
  cbn [fold_left].
  set (s1 := rule_step clock strftime_BY label s a).
  assert (Hp1 : forall n, (clock_reads s1 <= n)%nat -> strftime_BY (clock n) = label).
  { intros n Hn. apply Hp. unfold s1 in Hn.
    destruct (rule_step_cases label s a) as [[_ E]|[_ E]]; rewrite E in Hn;
      cbn [clock_reads] in Hn; lia. }
  destruct Hin as [<-|Hin]; [|now apply IH].
  assert (H1 : existsb (matches strftime_BY a label) (transactions s1) = true).
  { unfold s1. destruct (rule_step_cases label s a) as [[Ex E]|[_ E]]; rewrite E.
    - exact Ex.
    - cbn [transactions]. rewrite existsb_app. apply orb_true_iff. right.
      cbn [existsb]. rewrite orb_false_r.
      rewrite <- (Hp (clock_reads s)) by lia. apply matches_own_row. }
  destruct (fold_rules label rules s1) as (_ & _ & _ & added & Ht & _).
  rewrite Ht, existsb_app, H1. reflexivity.
Qed.

(** The search of the loop, read on the fields of a row. *)
Lemma matches_fields (rec : Recurring) (label : string) (t : Transaction) :
  matches strftime_BY rec label t = true <->
  Description t = Str (rec_Description rec)
  /\ Category t = Str (rec_Category rec)
  /\ exists d, Date t = Some d /\ strftime_BY d = label.
Proof.
  unfold matches, in_month. rewrite !andb_true_iff. split.
  - intros [[Hd Hc] Hm].
    destruct (Description t) as [|de| | |]; try discriminate Hd.
    destruct (Category t) as [|ca| | |]; try discriminate Hc.
    destruct (Date t) as [d|]; [|discriminate Hm].
    cbn [eq_str] in Hd, Hc. apply String.eqb_eq in Hd, Hc, Hm. subst.
    repeat split. now exists d.
  - intros (-> & -> & d & -> & <-). cbn [eq_str].
    now rewrite !String.eqb_refl.
Qed.

Lemma existsb_matches_fields (rec : Recurring) (label : string)
    (txs : list Transaction) :
  existsb (matches strftime_BY rec label) txs = true <->
  exists t d, In t txs
    /\ Description t = Str (rec_Description rec)
    /\ Category t = Str (rec_Category rec)
    /\ Date t = Some d /\ strftime_BY d = label.
Proof.
  rewrite existsb_exists. split.
  - intros (t & Hin & Hm). apply matches_fields in Hm as (Hd & Hc & d & HD & Hl).
    exists t, d. auto.
  - intros (t & d & Hin & Hd & Hc & HD & Hl). exists t. split; [assumption|].
    apply matches_fields. repeat split; try assumption. now exists d.
Qed.

(** The rows added by a pass made within one month: each is the row of a
    rule, dated at a reading of the clock made during the pass, and no two
    of them share description and category. *)
Lemma fold_rules_rows (label : string) (rules : list Recurring) :
  forall s,
    (forall n, (clock_reads s <= n)%nat -> strftime_BY (clock n) = label) ->
    exists added,
      transactions (fold_left (rule_step clock strftime_BY label) rules s)
      = transactions s ++ added
      /\ Forall (fun t => exists rec n,
                   In rec rules /\ (clock_reads s <= n)%nat
                   /\ t = row_of_rule (clock n) rec) added
      /\ NoDup (map (fun t => (Description t, Category t)) added).
Proof.
  induction rules as [|rec rules IH]; intros s Hp; cbn [fold_left].
  - exists []. rewrite app_nil_r. repeat split; [constructor|constructor].
  - destruct (rule_step_cases label s rec) as [[Ex E]|[Ex E]]; rewrite E.
    + destruct (IH s Hp) as (added & Ht & Hrows & Hnd).
      exists added. repeat split; try assumption.
      eapply Forall_impl; [|exact Hrows].
      intros t (r & n & Hin & Hn & ->). exists r, n. repeat split; auto.
      now right.
    + set (s1 := mkSession (transactions s ++ [row_of_rule (clock (clock_reads s)) rec])
                   (recurring s) (shown s) (S (clock_reads s))).
      assert (Hp1 : forall n, (clock_reads s1 <= n)%nat -> strftime_BY (clock n) = label).
      { intros n Hn. apply Hp. cbn [s1 clock_reads] in Hn. lia. }
      destruct (IH s1 Hp1) as (added & Ht & Hrows & Hnd).
      destruct (fold_rules label rules s1) as (_ & _ & _ & added' & Ht' & _ & _ & Hnone).
      rewrite Ht in Ht'. apply app_inv_head in Ht'. subst added'.
      exists (row_of_rule (clock (clock_reads s)) rec :: added).
      cbn [s1 transactions] in Ht. rewrite Ht, <- app_assoc.
      split; [reflexivity|]. split.
      * constructor.
        -- exists rec, (clock_reads s). repeat split; auto. now left.
        -- eapply Forall_impl; [|exact Hrows].
           intros t (r & n & Hin & Hn & ->). exists r, n.
           cbn [s1 clock_reads] in Hn. repeat split; auto; [now right|lia].
      * cbn [map]. constructor; [|exact Hnd].
        intros Hin. apply in_map_iff in Hin as (t & Hkey & Hin).
        assert (Hm : matches strftime_BY rec label t = true).
        { rewrite Forall_forall in Hrows.
          destruct (Hrows t Hin) as (r & n & _ & Hn & ->).
          cbn [row_of_rule Description Category] in Hkey.
          injection Hkey as Hd Hc.
          apply matches_fields. cbn [row_of_rule Description Category Date].
          repeat split; [now f_equal|now f_equal|].
          exists (clock n). split; [reflexivity|]. now apply Hp1. }
        assert (Hex : existsb (matches strftime_BY rec label) (transactions s1) = true).
        { cbn [s1 transactions]. rewrite existsb_app. apply orb_true_iff. right.
          cbn [existsb]. rewrite orb_false_r.
          rewrite <- (Hp (clock_reads s)) by lia. apply matches_own_row. }
        specialize (Hnone rec Hex).
        assert (Hin' : In t (filter (matches strftime_BY rec label) added))
          by (apply filter_In; auto).
        rewrite Hnone in Hin'. destruct Hin'.
Qed.

(** C1. Within one calendar month, a second pass of the recurring
    reconciliation leaves the store as the first pass left it.  The first
    pass only appends rows: at most one per rule, each the row of a rule
    (its kind, category, description and amount) dated at a reading of the
    clock, and no two of them with the same description and category;
    afterwards every rule has a row of its description and category dated
    in the month.  At the turn of a rule, if no row of the store has the
    description of the rule, its category, and a date whose month and
    year are the current ones, exactly one row is appended, dated now and
    with the kind, category, description and amount of the rule; if some
    row has, the store is left as it is. *)
Theorem recurring_idempotent_within_period (s : Session) :
  same_period clock strftime_BY (clock_reads s) ->
  let now_month := strftime_BY (clock (clock_reads s)) in
  exists s1 s2 added,
    apply_recurring clock strftime_BY s = (Ok tt, s1)
    /\ apply_recurring clock strftime_BY s1 = (Ok tt, s2)
    /\ transactions s2 = transactions s1
    /\ transactions s1 = transactions s ++ added
    /\ (length added <= length (recurring s))%nat
    /\ Forall (fun t => exists rec n,
                 In rec (recurring s) /\ (clock_reads s < n)%nat
                 /\ t = mkTransaction (Some (clock n))
                          (Str (rec_Type rec)) (Str (rec_Category rec))
                          (Str (rec_Description rec)) (Some (rec_Amount rec)))
              added
    /\ NoDup (map (fun t => (Description t, Category t)) added)
    /\ (forall rec, In rec (recurring s) ->
         exists t d, In t (transactions s1)
           /\ Description t = Str (rec_Description rec)
           /\ Category t = Str (rec_Category rec)
           /\ Date t = Some d /\ strftime_BY d = now_month)
    /\ (forall rec s0,
         (forall t d, In t (transactions s0) ->
            Description t = Str (rec_Description rec) ->
            Category t = Str (rec_Category rec) ->
            Date t = Some d -> strftime_BY d <> now_month) ->
         exists s0',
           apply_rule clock strftime_BY now_month rec s0 = (Ok tt, s0')
           /\ transactions s0' =
              transactions s0
              ++ [mkTransaction (Some (clock (clock_reads s0)))
                    (Str (rec_Type rec)) (Str (rec_Category rec))
                    (Str (rec_Description rec)) (Some (rec_Amount rec))])
    /\ (forall rec s0 t d,
         In t (transactions s0) ->
         Description t = Str (rec_Description rec) ->
         Category t = Str (rec_Category rec) ->
         Date t = Some d -> strftime_BY d = now_month ->
         apply_rule clock strftime_BY now_month rec s0 = (Ok tt, s0)).
Proof.
  intros Hp now_month.
  set (s0 := mkSession (transactions s) (recurring s) (shown s) (S (clock_reads s))).
  set (s1 := fold_left (rule_step clock strftime_BY now_month) (recurring s) s0).
  assert (Hp0 : forall n, (clock_reads s0 <= n)%nat -> strftime_BY (clock n) = now_month).
  { intros n Hn. apply Hp. cbn [s0 clock_reads] in Hn. lia. }
  destruct (fold_rules now_month (recurring s) s0)
    as (Hr & Hs & Hk & added & Ht & Hlen & _ & _).
  destruct (fold_rules_rows now_month (recurring s) s0 Hp0)
    as (added' & Ht' & Hrows & Hnd).
  fold s1 in Hr, Hs, Hk, Ht, Ht'.
  rewrite Ht in Ht'. apply app_inv_head in Ht'. subst added'.
  cbn [s0 transactions recurring clock_reads] in Hr, Hk, Ht, Hrows.
  assert (Hcov : forall rec, In rec (recurring s) ->
             existsb (matches strftime_BY rec now_month) (transactions s1) = true).
  { now apply fold_rules_covered. }
  exists s1, (mkSession (transactions s1) (recurring s1) (shown s1) (S (clock_reads s1))),
    added.
  split; [apply apply_recurring_run|].
  split.
  { rewrite apply_recurring_run. f_equal.
    rewrite (Hp (clock_reads s1)) by lia. fold now_month.
    apply fold_rules_fixed. cbn [transactions]. rewrite Hr. exact Hcov. }
  split; [reflexivity|].
  split; [exact Ht|]. split; [exact Hlen|].
  split.
  { eapply Forall_impl; [|exact Hrows].
    intros t (r & n & Hin & Hn & ->). exists r, n. repeat split; auto. }
  split; [exact Hnd|].
  split.
  { intros rec Hin. apply existsb_matches_fields. now apply Hcov. }
  split.
  - intros rec t0 Hno. rewrite apply_rule_run. eexists. split; [reflexivity|].
    destruct (rule_step_cases now_month t0 rec) as [[Ex _]|[_ E]]; [|now rewrite E].
    apply existsb_matches_fields in Ex as (t & d & Hin & Hd & Hc & HD & Hl).
    now destruct (Hno t d Hin Hd Hc HD).
  - intros rec t0 t d Hin Hd Hc HD Hl. rewrite apply_rule_run. f_equal.
    destruct (rule_step_cases now_month t0 rec) as [[_ E]|[Ex _]]; [exact E|].
    assert (Hex : existsb (matches strftime_BY rec now_month) (transactions t0) = true).
    { apply existsb_matches_fields. exists t, d. auto. }
    congruence.
Qed.

End RecurringFacts.

Lemma same_period_january : same_period clock_january strftime_example 0.
Proof.
  intros n _. unfold strftime_example, clock_january.
  assert (H : forall k, (Z.of_nat (Nat.min k 29) <? 30)%Z = true)
    by (intros k; apply Z.ltb_lt; lia).
  now rewrite !H.
Qed.

Lemma recurring_idempotent_within_period_witness :
  same_period clock_january strftime_example (clock_reads session_example)
  /\ exists s1 s2,
       apply_recurring clock_january strftime_example session_example = (Ok tt, s1)
       /\ apply_recurring clock_january strftime_example s1 = (Ok tt, s2)
       /\ transactions s2 = transactions s1.
Proof.
  split; [exact same_period_january|].
  destruct (recurring_idempotent_within_period clock_january strftime_example
              session_example same_period_january)
    as (s1 & s2 & added & H1 & H2 & H3 & _).
  exists s1, s2. auto.
Defined.

(** ** Editing a row *)

Lemma nth_error_replace {A : Type} (l : list A) (i : nat) (x : A) :
  (i < length l)%nat ->
  let l' := firstn i l ++ x :: skipn (S i) l in
  length l' = length l
  /\ nth_error l' i = Some x
  /\ (forall j, j <> i -> nth_error l' j = nth_error l j).
Proof.
  intros Hi l'. unfold l'.
  assert (Hf : length (firstn i l) = i) by (rewrite length_firstn; lia).
  split; [|split].
  - rewrite length_app. cbn [length]. rewrite Hf, length_skipn. lia.
  - rewrite nth_error_app2 by lia. rewrite Hf, Nat.sub_diag. reflexivity.
  - intros j Hj. destruct (Nat.lt_ge_cases j i) as [Hlt|Hge].
    + rewrite nth_error_app1 by lia. rewrite nth_error_firstn.
      apply Nat.ltb_lt in Hlt. now rewrite Hlt.
    + rewrite nth_error_app2 by lia. rewrite Hf.
      destruct (j - i)%nat as [|k] eqn:Ek; [lia|].
      cbn [nth_error]. rewrite nth_error_skipn. f_equal. lia.
Qed.

Lemma at_set_run (i : nat) (f : Transaction -> Transaction) (s : Session)
    (t : Transaction) :
  nth_error (transactions s) i = Some t ->
  exists s',
    at_set i f s = (Ok tt, s')
    /\ length (transactions s') = length (transactions s)
    /\ nth_error (transactions s') i = Some (f t)
    /\ (forall j, j <> i -> nth_error (transactions s') j = nth_error (transactions s) j)
    /\ recurring s' = recurring s /\ shown s' = shown s
    /\ clock_reads s' = clock_reads s.
Proof.
  intros Ht. unfold at_set, set_transactions. rewrite Ht.
  eexists. split; [reflexivity|]. cbn [transactions recurring shown clock_reads].
  assert (Hi : (i < length (transactions s))%nat)
    by (apply nth_error_Some; congruence).
  destruct (nth_error_replace (transactions s) i (f t) Hi) as (H1 & H2 & H3).
  repeat split; assumption.
Qed.

(** C9. For a position within the store, saving an edit replaces the row
    at that position by the row made of the submitted kind, category,
    amount and description and of the current time; the store keeps its
    length and every other row. *)
Theorem update_at_frame (clock : nat -> Timestamp) (s : Session) (edit_index : nat)
    (e_type e_cat : string) (e_amt : Q) (e_desc : string) :
  (edit_index < length (transactions s))%nat ->
  exists s',
    update_at clock edit_index e_type e_cat e_amt e_desc s = (Ok tt, s')
    /\ length (transactions s') = length (transactions s)
    /\ nth_error (transactions s') edit_index
       = Some (mkTransaction (Some (clock (clock_reads s))) (Str e_type)
                 (Str e_cat) (Str e_desc) (Some e_amt))
    /\ (forall j, j <> edit_index ->
        nth_error (transactions s') j = nth_error (transactions s) j)
    /\ recurring s' = recurring s
    /\ shown s' = shown s.
Proof.
  intros Hi.
  destruct (nth_error (transactions s) edit_index) as [t|] eqn:Et;
    [|apply nth_error_None in Et; lia].
  destruct (at_set_run edit_index (set_Type (Str e_type)) s t Et)
    as (s1 & E1 & L1 & N1 & O1 & R1 & S1 & K1).
  destruct (at_set_run edit_index (set_Category (Str e_cat)) s1 _ N1)
    as (s2 & E2 & L2 & N2 & O2 & R2 & S2 & K2).
  destruct (at_set_run edit_index (set_Amount (Some e_amt)) s2 _ N2)
    as (s3 & E3 & L3 & N3 & O3 & R3 & S3 & K3).
  destruct (at_set_run edit_index (set_Description (Str e_desc)) s3 _ N3)
    as (s4 & E4 & L4 & N4 & O4 & R4 & S4 & K4).
  set (s4' := mkSession (transactions s4) (recurring s4) (shown s4) (S (clock_reads s4))).
  destruct (at_set_run edit_index (set_Date (Some (clock (clock_reads s4)))) s4' _ N4)
    as (s5 & E5 & L5 & N5 & O5 & R5 & S5 & K5).
  exists s5. split.
  { unfold update_at, bindPy. rewrite E1, E2, E3, E4.
    unfold datetime_now. fold s4'. exact E5. }
  cbn [s4' transactions recurring shown] in *.
  split; [congruence|].
  split.
  { rewrite N5. replace (clock_reads s4) with (clock_reads s) by congruence.
    reflexivity. }
  split.
  { intros j Hj. rewrite O5, O4, O3, O2, O1 by assumption. reflexivity. }
  split; congruence.
Qed.

Lemma update_at_frame_witness :
  (0 < length (transactions session_one_row))%nat
  /\ exists s',
       update_at clock_example 0 "Income" "Other" 12 "gift" session_one_row
       = (Ok tt, s')
       /\ transactions s'
          = [mkTransaction (Some 3%Z) (Str "Income") (Str "Other") (Str "gift")
               (Some 12)].
Proof.
  split; [cbn; lia|].
  destruct (update_at_frame clock_example session_one_row 0 "Income" "Other" 12 "gift")
    as (s' & E & L & N & _).
  { cbn. lia. }
  exists s'. split; [exact E|].
  destruct (transactions s') as [|t [|t' r]]; try discriminate L.
  cbn in N. now injection N as ->.
Defined.

(** ** The text filter *)










(** ** Budget check *)




Lemma eq_str_iff (c : cell) (s : string) : eq_str c s = true <-> c = Str s.
Proof.
  destruct c; cbn; try (split; [discriminate | intros H; discriminate]).
  rewrite String.eqb_eq. split; [now intros -> | now intros [= ->]].
Qed.











(** ** The cumulative balance series *)























(** * Further properties of the script *)

(** ** The store as a table, and the import of a table *)

Lemma rows_nth_error (n : nat) (d ty ca de am : list cell) (i : nat) :
  (i < n)%nat ->
  nth_error (rows n d ty ca de am) i = Some (row_at d ty ca de am i).
Proof.
  intros Hi. unfold rows. rewrite nth_error_map.
  rewrite nth_error_seq. apply Nat.ltb_lt in Hi. now rewrite Hi.
Qed.

Lemma rows_length (n : nat) (d ty ca de am : list cell) :
  length (rows n d ty ca de am) = n.
Proof. unfold rows. now rewrite length_map, length_seq. Qed.

Lemma rows_frame_of (txs : list Transaction) :
  rows (length txs)
    (map (fun t => date_cell (Date t)) txs) (map Type_ txs) (map Category txs)
    (map Description txs) (map (fun t => amount_cell (Amount t)) txs)
  = txs.
Proof.
  unfold rows. induction txs as [|t txs IH]; [reflexivity|].
  cbn [length map seq]. rewrite <- seq_shift, map_map.
  f_equal.
  - destruct t as [[d|] ty ca de [a|]]; reflexivity.
  - exact IH.
Qed.

Lemma frame_of_well_formed (txs : list Transaction) : well_formed (frame_of txs).
Proof.
  unfold well_formed, frame_of. cbn [columns nrows].
  repeat constructor; cbn [snd]; apply length_map.
Qed.

Lemma frame_of_unique (txs : list Transaction) : required_unique (frame_of txs).
Proof.
  intros col Hcol. cbn in Hcol.
  destruct Hcol as [<-|[<-|[<-|[<-|[<-|[]]]]]]; cbn; lia.
Qed.

(** X4. The table of a store built by the script goes through
    [ensure_schema] unchanged, and its rows are the store: the enforcement
    made at the top of every run leaves the transactions as they are. *)
Theorem ensure_schema_keeps_store
    (to_datetime : list cell -> result (list cell))
    (to_numeric : list cell -> list cell) (txs : list Transaction) :
  coerces_or_raises is_datetime to_datetime ->
  coerces_to is_numeric to_numeric ->
  ensure_schema to_datetime to_numeric (PyDataFrame (frame_of txs))
  = Ok (frame_of txs)
  /\ concat [] (frame_of txs) = Ok txs.
Proof.
  intros HD HA. split.
  - rewrite (ensure_schema_unique_run to_datetime to_numeric (frame_of txs) HD HA
               (frame_of_well_formed txs) (frame_of_unique txs)).
    destruct HD as (_ & HfixD). destruct HA as (_ & _ & HfixA).
    change (source_column "Date" (frame_of txs))
      with (map (fun t => date_cell (Date t)) txs).
    change (source_column "Amount" (frame_of txs))
      with (map (fun t => amount_cell (Amount t)) txs).
    rewrite HfixD, HfixA; [reflexivity| |].
    + induction txs as [|t txs IH]; [reflexivity|]. cbn [map forallb].
      rewrite IH. now destruct (Amount t).
    + induction txs as [|t txs IH]; [reflexivity|]. cbn [map forallb].
      rewrite IH. now destruct (Date t).
  - unfold concat, frame_of. cbn [columns nrows].
    destruct (list_eq_dec string_dec _ REQUIRED_COLS) as [_|Hne];
      [|now destruct Hne].
    now rewrite rows_frame_of.
Qed.

Lemma ensure_schema_keeps_store_witness :
  coerces_or_raises is_datetime (to_datetime_by parse_date_example)
  /\ coerces_to is_numeric (to_numeric_by parse_number_example)
  /\ ensure_schema (to_datetime_by parse_date_example)
       (to_numeric_by parse_number_example)
       (PyDataFrame (frame_of [salary_100; lunch_no_amount]))
     = Ok (frame_of [salary_100; lunch_no_amount]).
Proof.
  split; [apply to_datetime_by_contract|].
  split; [apply to_numeric_by_contract|].
  exact (proj1 (ensure_schema_keeps_store
                  (to_datetime_by parse_date_example)
                  (to_numeric_by parse_number_example)
                  [salary_100; lunch_no_amount]
                  (to_datetime_by_contract _) (to_numeric_by_contract _))).
Defined.

(** The import block, by the outcome of its three steps. *)
Lemma import_block_run
    (to_datetime : list cell -> result (list cell))
    (to_numeric : list cell -> list cell)
    (read_csv read_excel : string -> result DataFrame)
    (f : UploadedFile) (s : Session) :
  import_block to_datetime to_numeric read_csv read_excel (Some f) s
  = match (df <- parsed read_csv read_excel f ;;
           out <- ensure_schema to_datetime to_numeric (PyDataFrame df) ;;
           concat (transactions s) out) with
    | Ok txs' =>
        (Ok tt, mkSession txs' (recurring s)
                  (shown s ++ [st_success_msg "Data Imported!"]) (clock_reads s))
    | Raise e =>
        (Ok tt, mkSession (transactions s) (recurring s)
                  (shown s ++ [st_error_msg ("Import failed: " ++ e)%string])
                  (clock_reads s))
    end.
Proof.
  unfold import_block, try_except, import_body, bindPy, parsed.
  assert (E : (if endswith (name f) ".csv"
               then lift (read_csv (data f)) else lift (read_excel (data f))) s
              = ((if endswith (name f) ".csv"
                  then read_csv (data f) else read_excel (data f)), s)).
  { now destruct (endswith (name f) ".csv"). }
  rewrite E. clear E.
  destruct (if endswith (name f) ".csv" then read_csv (data f)
            else read_excel (data f)) as [df|e]; [|reflexivity].
  cbn [bind]. unfold lift at 1.
  destruct (ensure_schema to_datetime to_numeric (PyDataFrame df)) as [out|e];
    [|reflexivity].
  cbn [bind]. unfold get_transactions, lift.
  destruct (concat (transactions s) out) as [txs'|e]; reflexivity.
Qed.

Section ImportFacts.

Variable to_datetime : list cell -> result (list cell).
Variable to_numeric : list cell -> list cell.
Variables read_csv read_excel : string -> result DataFrame.
Hypothesis to_datetime_ok : coerces_or_raises is_datetime to_datetime.
Hypothesis to_numeric_ok : coerces_to is_numeric to_numeric.

(** The import of a table in which no required label is repeated goes as
    [pd.to_datetime] goes on its date column. *)
Lemma import_unique_run (f : UploadedFile) (s : Session) (df : DataFrame) :
  parsed read_csv read_excel f = Ok df ->
  well_formed df ->
  required_unique df ->
  import_block to_datetime to_numeric read_csv read_excel (Some f) s
  = match to_datetime (source_column "Date" df) with
    | Ok d =>
        (Ok tt,
         mkSession (transactions s ++ imported_rows d to_numeric df)
           (recurring s) (shown s ++ [st_success_msg "Data Imported!"])
           (clock_reads s))
    | Raise e =>
        (Ok tt,
         mkSession (transactions s) (recurring s)
           (shown s ++ [st_error_msg ("Import failed: " ++ e)%string])
           (clock_reads s))
    end.
Proof.
  intros Hp Hwf Hu. rewrite import_block_run, Hp. cbn [bind].
  rewrite (ensure_schema_unique_run to_datetime to_numeric df
             to_datetime_ok to_numeric_ok Hwf Hu).
  destruct (to_datetime (source_column "Date" df)) as [d|e]; [|reflexivity].
  cbn [bind]. unfold concat. cbn [columns nrows].
  destruct (list_eq_dec string_dec _ REQUIRED_COLS) as [_|Hne];
    [reflexivity | now destruct Hne].
Qed.


(** X2. The imported rows take their kind, category and description from
    the table as they are, whatever they hold; a table without an
    "Amount" column gives rows without amount, and a table without a
    "Date" column rows without date.  There is one such row for each row
    of the table when [pd.to_datetime] accepts its date column, as it
    does when the table has none. *)
Theorem import_copies_cells (f : UploadedFile) (s : Session) (df : DataFrame) :
  parsed read_csv read_excel f = Ok df ->
  well_formed df ->
  required_unique df ->
  exists s1 new,
    import_block to_datetime to_numeric read_csv read_excel (Some f) s = (Ok tt, s1)
    /\ transactions s1 = transactions s ++ new
    /\ (forall i t, nth_error new i = Some t ->
          Type_ t = nth i (source_column "Type" df) NA
          /\ Category t = nth i (source_column "Category" df) NA
          /\ Description t = nth i (source_column "Description" df) NA
          /\ (in_columns "Amount" df = false -> Amount t = None)
          /\ (in_columns "Date" df = false -> Date t = None))
    /\ (forall d, to_datetime (source_column "Date" df) = Ok d ->
          length new = nrows df)
    /\ (in_columns "Date" df = false -> length new = nrows df).
Proof.
  intros Hp Hwf Hu.
  rewrite (import_unique_run f s df Hp Hwf Hu).
  assert (HsrcD : in_columns "Date" df = false ->
                  to_datetime (source_column "Date" df) = Ok (repeat NaT (nrows df))).
  { intros Hmiss. apply in_columns_selected in Hmiss.
    unfold source_column. rewrite Hmiss.
    destruct to_datetime_ok as (_ & Hfix). apply Hfix. now apply forallb_repeat. }
  destruct (to_datetime (source_column "Date" df)) as [d|e] eqn:Ed.
  - eexists. exists (imported_rows d to_numeric df).
    split; [reflexivity|]. split; [reflexivity|].
    split; [|split; intros; apply rows_length].
    intros i t Hi.
    assert (Hlt : (i < nrows df)%nat).
    { rewrite <- (rows_length (nrows df) d
                    (source_column "Type" df) (source_column "Category" df)
                    (source_column "Description" df)
                    (to_numeric (source_column "Amount" df))).
      apply nth_error_Some. unfold imported_rows in Hi. congruence. }
    unfold imported_rows in Hi. rewrite rows_nth_error in Hi by exact Hlt.
    injection Hi as <-. unfold row_at. cbn [Type_ Category Description Amount Date].
    repeat split.
    + intros Hmiss. apply in_columns_selected in Hmiss.
      unfold source_column. rewrite Hmiss.
      destruct to_numeric_ok as (_ & _ & Hfix).
      rewrite Hfix by now apply forallb_repeat.
      now rewrite nth_repeat.
    + intros Hmiss. specialize (HsrcD Hmiss). injection HsrcD as ->.
      destruct (nth_in_or_default i (repeat NaT (nrows df)) NA) as [Hin | ->];
        [|reflexivity].
      apply repeat_spec in Hin. now rewrite Hin.
  - eexists. exists []. cbn [transactions].
    split; [reflexivity|]. split; [now rewrite app_nil_r|].
    split; [|split].
    + intros i t Hi. now destruct i.
    + discriminate.
    + intros Hmiss. specialize (HsrcD Hmiss). discriminate.
Qed.

End ImportFacts.


Lemma import_copies_cells_witness :
  coerces_or_raises is_datetime (to_datetime_by parse_date_example)
  /\ coerces_to is_numeric (to_numeric_by parse_number_example)
  /\ parsed read_csv_example read_excel_example upload_csv = Ok no_amount_example
  /\ well_formed no_amount_example
  /\ required_unique no_amount_example
  /\ exists s1 new,
       import_block (to_datetime_by parse_date_example)
         (to_numeric_by parse_number_example) read_csv_example read_excel_example
         (Some upload_csv) session_one_row = (Ok tt, s1)
       /\ transactions s1 = transactions session_one_row ++ new
       /\ length new = 2%nat
       /\ forall i t, nth_error new i = Some t -> Amount t = None.
Proof.
  split; [apply to_datetime_by_contract|].
  split; [apply to_numeric_by_contract|].
  split; [reflexivity|].
  split; [apply no_amount_example_well_formed|].
  split; [apply no_amount_example_unique|].
  destruct (import_copies_cells
              (to_datetime_by parse_date_example) (to_numeric_by parse_number_example)
              read_csv_example read_excel_example
              (to_datetime_by_contract _) (to_numeric_by_contract _)
              upload_csv session_one_row no_amount_example eq_refl
              no_amount_example_well_formed no_amount_example_unique)
    as (s1 & new & E & Ht & Hc & Hl & _).
  exists s1, new. split; [exact E|]. split; [exact Ht|].
  split; [exact (Hl [Ts 0; NaT] eq_refl)|].
  intros i t Hi. now apply (Hc i t Hi).
Defined.

(** ** The edit block *)

Lemma replace_at_length {A : Type} (i : nat) (x : A) (l : list A) :
  (i < length l)%nat -> length (replace_at i x l) = length l.
Proof. intros H. now destruct (nth_error_replace l i x H). Qed.

Lemma replace_at_twice {A : Type} (i : nat) (x y : A) (l : list A) :
  (i < length l)%nat -> replace_at i y (replace_at i x l) = replace_at i y l.
Proof.
  intros H. unfold replace_at.
  assert (Hf : length (firstn i l) = i) by (rewrite length_firstn; lia).
  f_equal.
  - rewrite firstn_app, Hf, Nat.sub_diag. cbn [firstn].
    rewrite app_nil_r. rewrite firstn_firstn. f_equal. lia.
  - f_equal. rewrite skipn_app, Hf.
    rewrite (skipn_all2 (n := S i) (firstn i l)) by lia.
    replace (S i - i)%nat with 1%nat by lia. reflexivity.
Qed.

Lemma at_set_replace (i : nat) (f : Transaction -> Transaction) (s : Session)
    (t : Transaction) :
  nth_error (transactions s) i = Some t ->
  at_set i f s
  = (Ok tt, mkSession (replace_at i (f t) (transactions s)) (recurring s)
              (shown s) (clock_reads s)).
Proof. intros H. unfold at_set, set_transactions. now rewrite H. Qed.

Lemma nth_error_replace_at {A : Type} (i : nat) (x : A) (l : list A) :
  (i < length l)%nat -> nth_error (replace_at i x l) i = Some x.
Proof. intros H. now destruct (nth_error_replace l i x H) as (_ & H2 & _). Qed.

Lemma at_set_made (i : nat) (f : Transaction -> Transaction)
    (txs : list Transaction) (recs : list Recurring) (sh : list message) (k : nat)
    (x : Transaction) :
  (i < length txs)%nat ->
  at_set i f (mkSession (replace_at i x txs) recs sh k)
  = (Ok tt, mkSession (replace_at i (f x) txs) recs sh k).
Proof.
  intros Hi.
  rewrite (at_set_replace i f _ x) by (now apply nth_error_replace_at).
  cbn [transactions recurring shown clock_reads].
  now rewrite replace_at_twice.
Qed.

(** The five assignments, as one replacement. *)
Lemma update_at_run (clock : nat -> Timestamp) (s : Session) (i : nat)
    (e_type e_cat : string) (e_amt : Q) (e_desc : string) :
  (i < length (transactions s))%nat ->
  update_at clock i e_type e_cat e_amt e_desc s
  = (Ok tt,
     mkSession
       (replace_at i
          (mkTransaction (Some (clock (clock_reads s))) (Str e_type) (Str e_cat)
             (Str e_desc) (Some e_amt))
          (transactions s))
       (recurring s) (shown s) (S (clock_reads s))).
Proof.
  intros Hi.
  destruct (nth_error (transactions s) i) as [t|] eqn:Et;
    [|apply nth_error_None in Et; lia].
  unfold update_at, bindPy.
  rewrite (at_set_replace i _ s t Et).
  rewrite !at_set_made by exact Hi.
  unfold datetime_now. cbn [transactions recurring shown clock_reads].
  rewrite at_set_made by exact Hi.
  reflexivity.
Qed.

Lemma index_found (options : list string) (x : cell) :
  existsb (eq_str x) options = true -> exists i, index options x = Ok i.
Proof.
  induction options as [|o options IH]; cbn; [discriminate|].
  destruct (eq_str x o); [now exists 0%nat|].
  cbn. intros H. destruct (IH H) as [i Hi]. rewrite Hi. now exists (S i).
Qed.

Lemma index_missing (options : list string) (x : cell) :
  existsb (eq_str x) options = false ->
  index options x = Raise "ValueError: value is not in list".
Proof.
  induction options as [|o options IH]; cbn; [reflexivity|].
  destruct (eq_str x o); [discriminate|].
  cbn. intros H. now rewrite (IH H).
Qed.

Lemma editable_fields (t : Transaction) :
  editable t = true <->
  (Type_ t = Str "Income" \/ Type_ t = Str "Expense")
  /\ exists cat, In cat CATEGORY_OPTIONS /\ Category t = Str cat.
Proof.
  unfold editable. rewrite andb_true_iff, !existsb_exists. split.
  - intros [(k & Hk & Ek) (c & Hc & Ec)].
    apply eq_str_iff in Ek, Ec. split; [|now exists c].
    cbn in Hk. destruct Hk as [<-|[<-|[]]]; auto.
  - intros [Hk (c & Hc & Ec)]. split.
    + destruct Hk as [Hk|Hk]; [exists "Income"%string | exists "Expense"%string];
        (split; [cbn; tauto | now apply eq_str_iff]).
    + exists c. split; [exact Hc | now apply eq_str_iff].
Qed.


Lemma edit_index_in_range (entered : nat) (txs : list Transaction) :
  txs <> [] -> (edit_index_of entered txs < length txs)%nat.
Proof.
  intros H. unfold edit_index_of, number_input.
  destruct txs; [congruence|]. cbn [length Nat.leb andb].
  destruct (entered <=? S (length txs) - 1)%nat eqn:E; [|lia].
  apply Nat.leb_le in E. lia.
Qed.

(** The row the edit block works on: the one entered when there is such
    a row, the first one otherwise. *)
Lemma edit_index_default (entered : nat) (txs : list Transaction) :
  edit_index_of entered txs
  = if (entered <? length txs)%nat then entered else 0%nat.
Proof.
  unfold edit_index_of, number_input. cbn [Nat.leb andb].
  destruct (entered <? length txs)%nat eqn:E.
  - apply Nat.ltb_lt in E.
    destruct (entered <=? length txs - 1)%nat eqn:E'; [reflexivity|].
    apply Nat.leb_gt in E'. lia.
  - apply Nat.ltb_ge in E.
    destruct (entered <=? length txs - 1)%nat eqn:E'; [|reflexivity].
    apply Nat.leb_le in E'. lia.
Qed.

(** The edit block, case by case. *)
Lemma edit_block_run (clock : nat -> Timestamp) (entered : nat)
    (e_type e_cat : string) (e_amt : Q) (e_desc : string) (save_edit : bool)
    (s : Session) (row : Transaction) :
  nth_error (transactions s) (edit_index_of entered (transactions s)) = Some row ->
  edit_block clock entered e_type e_cat e_amt e_desc save_edit s
  = if negb (editable row) then (Raise "ValueError: value is not in list", s)
    else if negb (amount_accepted row) then (Raise StreamlitValueBelowMinError, s)
    else if save_edit then
      (Ok tt,
       mkSession
         (replace_at (edit_index_of entered (transactions s))
            (mkTransaction (Some (clock (clock_reads s))) (Str e_type) (Str e_cat)
               (Str e_desc) (Some e_amt))
            (transactions s))
         (recurring s) (shown s ++ [st_success_msg "Transaction Updated!"])
         (S (clock_reads s)))
    else (Ok tt, s).
Proof.
  intros Hrow.
  assert (Hne : transactions s <> []).
  { intros E. rewrite E in Hrow. now destruct (edit_index_of entered []). }
  pose proof (edit_index_in_range entered _ Hne) as Hi.
  unfold edit_block, bindPy, get_transactions.
  destruct (transactions s) as [|t0 txs0] eqn:Etx; [congruence|].
  cbn [empty negb]. rewrite <- Etx in *.
  fold (edit_index_of entered (transactions s)).
  unfold lift at 1, iloc. rewrite Hrow.
  unfold editable.
  destruct (existsb (eq_str (Type_ row)) ["Income"; "Expense"]) eqn:Ek.
  - destruct (index_found _ _ Ek) as [i Ei]. unfold lift at 1. rewrite Ei.
    destruct (existsb (eq_str (Category row)) CATEGORY_OPTIONS) eqn:Ec.
    + destruct (index_found _ _ Ec) as [j Ej]. unfold lift at 1. rewrite Ej.
      cbn [andb negb]. unfold lift at 1, number_input_value, amount_accepted.
      destruct (Amount row) as [v|].
      * destruct (Qle_bool 0 v); cbn [negb]; [|reflexivity].
        destruct save_edit; [|reflexivity].
        rewrite update_at_run by exact Hi. reflexivity.
      * cbn [negb]. destruct save_edit; [|reflexivity].
        rewrite update_at_run by exact Hi. reflexivity.
    + unfold lift at 1. now rewrite (index_missing _ _ Ec).
  - unfold lift at 1. now rewrite (index_missing _ _ Ek).
Qed.

(** X5. The edit block works on the row whose index was entered, or on
    the first row when there is no row of that index.  When that row has a
    kind other than Income and Expense, or a category that is not one of
    the options, as an imported row may, the block raises ValueError before
    anything is written; when kind and category are among the options but
    the amount is a negative number, it raises while the amount widget is
    built.  In both cases the session is left as it was, whether or not
    the changes were submitted. *)
Theorem edit_block_rejects_foreign_row (clock : nat -> Timestamp) (entered : nat)
    (e_type e_cat : string) (e_amt : Q) (e_desc : string) (save_edit : bool)
    (s : Session) (row : Transaction) :
  nth_error (transactions s)
    (if (entered <? length (transactions s))%nat then entered else 0%nat)
  = Some row ->
  (~ (Type_ row = Str "Income" \/ Type_ row = Str "Expense")
   \/ ~ (exists cat, In cat CATEGORY_OPTIONS /\ Category row = Str cat) ->
   edit_block clock entered e_type e_cat e_amt e_desc save_edit s
   = (Raise "ValueError: value is not in list", s))
  /\ ((Type_ row = Str "Income" \/ Type_ row = Str "Expense") ->
      (exists cat, In cat CATEGORY_OPTIONS /\ Category row = Str cat) ->
      (exists v, Amount row = Some v /\ v < 0) ->
      edit_block clock entered e_type e_cat e_amt e_desc save_edit s
      = (Raise StreamlitValueBelowMinError, s)).
Proof.
  intros Hrow. rewrite <- edit_index_default in Hrow.
  rewrite (edit_block_run clock entered e_type e_cat e_amt e_desc save_edit s row Hrow).
  split.
  - intros H. destruct (editable row) eqn:He; [|reflexivity].
    exfalso. apply editable_fields in He as [Hk Hc]. tauto.
  - intros Hk Hc (v & Hv & Hneg).
    assert (He : editable row = true) by (apply editable_fields; auto).
    rewrite He. cbn [negb]. unfold amount_accepted. rewrite Hv.
    destruct (Qle_bool 0 v) eqn:E; [|reflexivity].
    apply Qle_bool_iff in E. exfalso. apply (Qlt_not_le _ _ Hneg E).
Qed.

Lemma edit_block_rejects_foreign_row_witness :
  (nth_error (transactions session_imported) 1 = Some groceries
   /\ edit_block clock_example 1 "Expense" "Food" 12 "market" true session_imported
      = (Raise "ValueError: value is not in list", session_imported))
  /\ (nth_error (transactions session_refund) 1 = Some refund
      /\ edit_block clock_example 1 "Income" "Food" 5 "refund" true session_refund
         = (Raise StreamlitValueBelowMinError, session_refund)).
Proof.
  split; (split; [reflexivity|]).
  - apply (edit_block_rejects_foreign_row clock_example 1 "Expense" "Food" 12 "market"
             true session_imported groceries eq_refl).
    right. intros (cat & Hin & Hcat). cbn in Hin, Hcat.
    repeat (destruct Hin as [<-|Hin]; [discriminate Hcat|]). exact Hin.
  - apply (edit_block_rejects_foreign_row clock_example 1 "Income" "Food" 5 "refund"
             true session_refund refund eq_refl).
    + now left.
    + exists "Food"%string. split; [cbn; tauto | reflexivity].
    + exists (-5). split; reflexivity.
Defined.



(** X7. Whatever is entered, and whether the block returns or raises, the
    edit block neither adds nor removes a row, and leaves the recurring
    rules alone. *)
Theorem edit_block_keeps_length (clock : nat -> Timestamp) (entered : nat)
    (e_type e_cat : string) (e_amt : Q) (e_desc : string) (save_edit : bool)
    (s : Session) :
  length (transactions
            (snd (edit_block clock entered e_type e_cat e_amt e_desc save_edit s)))
  = length (transactions s)
  /\ recurring (snd (edit_block clock entered e_type e_cat e_amt e_desc save_edit s))
     = recurring s.
Proof.
  destruct (transactions s) as [|t0 txs0] eqn:Etx.
  { unfold edit_block, bindPy, get_transactions. rewrite Etx. cbn. now rewrite Etx. }
  assert (Hne : transactions s <> []) by congruence.
  pose proof (edit_index_in_range entered _ Hne) as Hi.
  destruct (nth_error (transactions s) (edit_index_of entered (transactions s)))
    as [row|] eqn:Hrow; [|apply nth_error_None in Hrow; lia].
  rewrite (edit_block_run clock entered e_type e_cat e_amt e_desc save_edit s row Hrow).
  rewrite <- Etx.
  destruct (editable row); cbn [negb]; [|now split].
  destruct (amount_accepted row); cbn [negb]; [|now split].
  destruct save_edit; cbn [snd transactions recurring]; [|now split].
  split; [now apply replace_at_length | reflexivity].
Qed.

(** ** Rows entered through the forms stay editable *)

Lemma existsb_eq_str_In (x : string) (options : list string) :
  In x options -> existsb (eq_str (Str x)) options = true.
Proof.
  intros H. apply existsb_exists. exists x. split; [exact H|].
  cbn. apply String.eqb_refl.
Qed.

Lemma editable_made (now : option Timestamp) (kind cat desc : string)
    (amt : option Q) :
  In kind ["Income"; "Expense"] -> In cat CATEGORY_OPTIONS ->
  editable (mkTransaction now (Str kind) (Str cat) (Str desc) amt) = true.
Proof.
  intros Hk Hc. unfold editable. cbn [Type_ Category].
  now rewrite (existsb_eq_str_In kind), (existsb_eq_str_In cat).
Qed.




Lemma transaction_form_run (clock : nat -> Timestamp) (t_type t_cat : string)
    (t_amt : Q) (desc : string) (submit : bool) (s : Session) :
  transaction_form clock t_type t_cat t_amt desc submit s
  = (Ok tt,
     if submit && negb (Qle_bool t_amt 0) then
       mkSession
         (transactions s
          ++ [mkTransaction (Some (clock (clock_reads s))) (Str t_type) (Str t_cat)
                (Str desc) (Some t_amt)])
         (recurring s) (shown s ++ [st_success_msg "Transaction Added!"])
         (S (clock_reads s))
     else s).
Proof.
  unfold transaction_form. now destruct (submit && negb (Qle_bool t_amt 0)).
Qed.

Lemma recurring_form_run (r_type r_cat : string) (r_amt : Q) (r_desc : string)
    (add_rec : bool) (s : Session) :
  recurring_form r_type r_cat r_amt r_desc add_rec s
  = (Ok tt,
     if add_rec && negb (Qle_bool r_amt 0) then
       mkSession (transactions s)
         (recurring s ++ [mkRecurring r_type r_cat r_amt r_desc])
         (shown s ++ [st_success_msg "Recurring Transaction Added!"])
         (clock_reads s)
     else s).
Proof.
  unfold recurring_form. now destruct (add_rec && negb (Qle_bool r_amt 0)).
Qed.

Lemma rule_from_form_row (now : Timestamp) (rec : Recurring) :
  rule_from_form rec = true -> editable (row_of_rule now rec) = true.
Proof.
  unfold rule_from_form, editable, row_of_rule. cbn [Type_ Category].
  intros H. apply andb_prop in H as [Hk Hc].
  apply andb_true_iff. split.
  - apply existsb_exists in Hk as (x & Hx & E). apply String.eqb_eq in E.
    rewrite E. now apply existsb_eq_str_In.
  - apply existsb_exists in Hc as (x & Hx & E). apply String.eqb_eq in E.
    rewrite E. now apply existsb_eq_str_In.
Qed.

Lemma fold_rules_editable (clock : nat -> Timestamp)
    (strftime_BY : Timestamp -> string) (label : string) (rules : list Recurring) :
  Forall (fun r => rule_from_form r = true) rules ->
  forall s,
    Forall (fun t => editable t = true) (transactions s) ->
    Forall (fun t => editable t = true)
      (transactions (fold_left (rule_step clock strftime_BY label) rules s)).
Proof.
  induction 1 as [|rec rules Hrec _ IH]; intros s Hs; cbn [fold_left];
    [exact Hs|].
  apply IH.
  destruct (rule_step_cases clock strftime_BY label s rec) as [[_ E]|[_ E]];
    rewrite E; [exact Hs|].
  cbn [transactions]. apply Forall_app. split; [exact Hs|].
  constructor; [|constructor]. now apply rule_from_form_row.
Qed.

(** X9. The top of a run keeps the store editable.  When every row has a
    kind and a category among the options and every rule was made by the
    recurring form, then after the transaction form, the recurring form
    and the reconciliation, run in that order on values their widgets
    offer, every row still has a kind and a category among the options,
    and so has every rule; none of the three raises. *)
Theorem entry_keeps_editable (clock : nat -> Timestamp)
    (strftime_BY : Timestamp -> string)
    (t_type t_cat : string) (t_amt : Q) (desc : string) (submit : bool)
    (r_type r_cat : string) (r_amt : Q) (r_desc : string) (add_rec : bool)
    (s : Session) :
  Forall (fun t => editable t = true) (transactions s) ->
  Forall (fun r => rule_from_form r = true) (recurring s) ->
  In t_type ["Income"; "Expense"] -> In t_cat CATEGORY_OPTIONS ->
  In r_type ["Income"; "Expense"] -> In r_cat CATEGORY_OPTIONS ->
  exists s',
    (transaction_form clock t_type t_cat t_amt desc submit ;;;
     recurring_form r_type r_cat r_amt r_desc add_rec ;;;
     apply_recurring clock strftime_BY) s = (Ok tt, s')
    /\ Forall (fun t => editable t = true) (transactions s')
    /\ Forall (fun r => rule_from_form r = true) (recurring s').
Proof.
  intros Hrows Hrules Htk Htc Hrk Hrc.
  unfold bindPy. rewrite transaction_form_run.
  set (s1 := if submit && negb (Qle_bool t_amt 0) then _ else s).
  assert (H1 : Forall (fun t => editable t = true) (transactions s1)
                /\ recurring s1 = recurring s).
  { unfold s1. destruct (submit && negb (Qle_bool t_amt 0)); [|now split].
    cbn [transactions recurring]. split; [|reflexivity].
    apply Forall_app. split; [exact Hrows|].
    constructor; [|constructor]. now apply editable_made. }
  destruct H1 as [H1 R1].
  rewrite recurring_form_run.
  set (s2 := if add_rec && negb (Qle_bool r_amt 0) then _ else s1).
  assert (H2 : Forall (fun t => editable t = true) (transactions s2)
                /\ Forall (fun r => rule_from_form r = true) (recurring s2)).
  { unfold s2. destruct (add_rec && negb (Qle_bool r_amt 0));
      cbn [transactions recurring]; rewrite ?R1; [|now split].
    split; [exact H1|]. apply Forall_app. split; [exact Hrules|].
    constructor; [|constructor].
    unfold rule_from_form. cbn [rec_Type rec_Category].
    apply andb_true_iff. split; apply existsb_exists.
    - exists r_type. split; [exact Hrk | apply String.eqb_refl].
    - exists r_cat. split; [exact Hrc | apply String.eqb_refl]. }
  destruct H2 as [H2 R2].
  rewrite apply_recurring_run. eexists. split; [reflexivity|].
  split.
  - apply fold_rules_editable; [exact R2 | exact H2].
  - destruct (fold_rules clock strftime_BY
                (strftime_BY (clock (clock_reads s2))) (recurring s2)
                (mkSession (transactions s2) (recurring s2) (shown s2)
                   (S (clock_reads s2)))) as (Hr & _).
    rewrite Hr. exact R2.
Qed.

Lemma entry_keeps_editable_witness :
  Forall (fun t => editable t = true) (transactions session_example)
  /\ Forall (fun r => rule_from_form r = true) (recurring session_example)
  /\ exists s',
       (transaction_form clock_january "Expense" "Food" 30 "lunch" true ;;;
        recurring_form "Expense" "Bills" 50 "rent" false ;;;
        apply_recurring clock_january strftime_example) session_example
       = (Ok tt, s')
       /\ Forall (fun t => editable t = true) (transactions s').
Proof.
  assert (H1 : Forall (fun t => editable t = true) (transactions session_example))
    by constructor.
  assert (H2 : Forall (fun r => rule_from_form r = true) (recurring session_example))
    by (repeat constructor).
  split; [exact H1|]. split; [exact H2|].
  destruct (entry_keeps_editable clock_january strftime_example
              "Expense" "Food" 30 "lunch" true "Expense" "Bills" 50 "rent" false
              session_example H1 H2) as (s' & E & Hs & _);
    try (cbn; tauto).
  exists s'. auto.
Defined.

(** ** The filters and what the sidebar offers *)

Lemma filter_twice {A : Type} (p q : A -> bool) (l : list A) :
  filter q (filter p l) = filter (fun x => p x && q x) l.
Proof.
  induction l as [|x l IH]; [reflexivity|]. cbn [filter].
  destruct (p x); cbn [filter andb]; now rewrite IH.
Qed.

Lemma filter_all {A : Type} (l : list A) : filter (fun _ => true) l = l.
Proof. induction l as [|x l IH]; [reflexivity|]. cbn. now rewrite IH. Qed.

Lemma text_filter_keeps (search_text : string) (txs df : list Transaction) :
  text_filter search_text txs = Some df ->
  exists p, df = filter p txs.
Proof.
  unfold text_filter.
  destruct (negb (String.eqb search_text "")).
  - destruct (str_accessor (map Description txs)); [|discriminate].
    destruct (re_compile search_text) as [items|]; [|discriminate].
    intros [= <-]. now eexists.
  - intros [= <-]. exists (fun _ => true). now rewrite filter_all.
Qed.

(** X10. The view is made of rows of the store, in the order of the
    store.  An empty selection of categories filters nothing, and neither
    does the month "All"; with no search text as well the view is the
    whole store.  A selection of categories that is not empty keeps only
    rows of those categories, so none without category; a month other
    than "All" keeps only rows dated in that month, so none without
    date. *)
Theorem apply_filters_view (strftime_BY : Timestamp -> string)
    (search_text : string) (filter_category : list cell) (filter_month : string)
    (txs view : list Transaction) :
  apply_filters strftime_BY search_text filter_category filter_month txs = Some view ->
  (exists keep, view = filter keep txs)
  /\ (filter_category <> [] ->
      forall t, In t view ->
                isin filter_category (Category t) = true /\ Category t <> NA)
  /\ (filter_month <> "All"%string ->
      forall t, In t view ->
                exists d, Date t = Some d /\ strftime_BY d = filter_month)
  /\ apply_filters strftime_BY "" [] "All" txs = Some txs.
Proof.
  unfold apply_filters. intros H.
  destruct (text_filter search_text txs) as [df|] eqn:Et; [|discriminate].
  injection H as <-.
  destruct (text_filter_keeps _ _ _ Et) as [p ->].
  split; [|split; [|split; [|reflexivity]]].
  - unfold month_filter, category_filter.
    destruct (negb (String.eqb filter_month "All")), filter_category;
      rewrite ?filter_twice; now eexists.
  - intros Hne t Ht.
    assert (Hin : In t (category_filter filter_category (filter p txs))).
    { unfold month_filter in Ht.
      destruct (negb (String.eqb filter_month "All")); [|exact Ht].
      now apply filter_In in Ht. }
    unfold category_filter in Hin.
    destruct filter_category as [|c cs]; [congruence|].
    apply filter_In in Hin as [_ Hin]. split; [exact Hin|].
    intros E. rewrite E in Hin. unfold isin in Hin.
    apply existsb_exists in Hin as (x & _ & Hx). discriminate.
  - intros Hne t Ht. unfold month_filter in Ht.
    destruct (String.eqb filter_month "All") eqn:E.
    { apply String.eqb_eq in E. contradiction. }
    cbn [negb] in Ht. apply filter_In in Ht as [_ Ht].
    unfold in_month in Ht. destruct (Date t) as [d|]; [|discriminate].
    apply String.eqb_eq in Ht. now exists d.
Qed.

Lemma apply_filters_view_witness :
  apply_filters strftime_example "" [Str "Food"] "February 1970"
    [lunch_30; salary_100; dinner_february] = Some [dinner_february]
  /\ exists keep,
       [dinner_february] = filter keep [lunch_30; salary_100; dinner_february].
Proof.
  split; [reflexivity|].
  exact (proj1 (apply_filters_view strftime_example "" [Str "Food"] "February 1970"
                  [lunch_30; salary_100; dinner_february] [dinner_february]
                  eq_refl)).
Defined.

Lemma unique_In (c : cell) (ks : list cell) : In c (unique ks) -> In c ks.
Proof.
  induction ks as [|k ks IH]; cbn; [tauto|].
  intros [H|H]; [now left|]. apply filter_In in H as [H _]. right. now apply IH.
Qed.

Lemma unique_str_In (x : string) (l : list string) : In x (unique_str l) -> In x l.
Proof.
  induction l as [|y l IH]; cbn; [tauto|].
  intros [H|H]; [now left|]. apply filter_In in H as [H _]. right. now apply IH.
Qed.

Lemma cell_eqb_refl (c : cell) : notna c = true -> cell_eqb c c = true.
Proof.
  destruct c as [|s|x|t|]; cbn; [discriminate| | | |discriminate]; intros _.
  - apply String.eqb_refl.
  - apply Qeq_bool_iff. reflexivity.
  - apply Z.eqb_refl.
Qed.

Lemma filter_has {A : Type} (p : A -> bool) (l : list A) (x : A) :
  In x l -> p x = true -> filter p l <> [].
Proof.
  intros Hin Hp E.
  assert (H : In x (filter p l)) by (apply filter_In; now split).
  now rewrite E in H.
Qed.

(** X11. What the sidebar offers is taken from the store: every category
    it hands over is the non-null, non-blank category of some
    transaction, and the month it hands over is "All" or the month of
    some transaction.  So neither the category filter nor the month
    filter, taken alone, empties the view of a store that holds those
    transactions, whatever has been appended to it since. *)
Theorem sidebar_offers_what_exists (strftime_BY : Timestamp -> string)
    (sorted : list cell -> result (list cell))
    (sorted_str : list string -> result (list string))
    (df_base more : list Transaction) (typed : string) (picked : cell -> bool)
    (chosen : nat) (search_text : string) (filter_category : list cell)
    (filter_month : string) :
  rearranges sorted ->
  rearranges sorted_str ->
  sidebar_filters strftime_BY sorted sorted_str df_base typed picked chosen
  = Ok (search_text, filter_category, filter_month) ->
  (forall c, In c filter_category ->
             notna c = true /\ str_blank c = false
             /\ exists t, In t df_base /\ Category t = c)
  /\ (filter_month = "All"%string
      \/ exists t, In t df_base /\ in_month strftime_BY filter_month t = true)
  /\ (df_base ++ more <> [] ->
      category_filter filter_category (df_base ++ more) <> []
      /\ month_filter strftime_BY filter_month (df_base ++ more) <> []).
Proof.
  intros Hsorted Hsorted_str Hside.
  assert (Hcats : forall c, In c filter_category ->
                    notna c = true /\ str_blank c = false
                    /\ exists t, In t df_base /\ Category t = c).
  { unfold sidebar_filters in Hside.
    destruct df_base as [|t0 df0] eqn:Edf; cbn [empty negb] in Hside.
    { injection Hside as _ <- _. intros c []. }
    rewrite <- Edf in *. unfold category_choices in Hside.
    destruct (sorted _) as [choices|e] eqn:Es; [|discriminate].
    cbn [bind] in Hside.
    destruct (month_options strftime_BY sorted_str df_base) as [options|e];
      [|discriminate].
    cbn [bind] in Hside. injection Hside as _ <- _.
    intros c Hc. apply filter_In in Hc as [Hc _].
    apply Hsorted in Es. apply (Permutation_in _ (Permutation_sym Es)) in Hc.
    apply filter_In in Hc as [Hc Hblank]. apply negb_true_iff in Hblank.
    apply unique_In in Hc. apply filter_In in Hc as [Hc Hna].
    apply in_map_iff in Hc as (t & Ht & Hin). now eauto. }
  assert (Hmonth : filter_month = "All"%string
                   \/ exists t, In t df_base
                                /\ in_month strftime_BY filter_month t = true).
  { unfold sidebar_filters in Hside.
    destruct df_base as [|t0 df0] eqn:Edf; cbn [empty negb] in Hside.
    { injection Hside as _ _ <-. now left. }
    rewrite <- Edf in *.
    destruct (category_choices sorted df_base) as [choices|e]; [|discriminate].
    cbn [bind] in Hside. unfold month_options in Hside.
    destruct (sorted_str _) as [months|e] eqn:Es; [|discriminate].
    cbn [bind] in Hside. injection Hside as _ _ <-.
    destruct chosen as [|m]; [now left|].
    destruct (nth_in_or_default m months "All"%string) as [Hin|Hd]; [|now left].
    right.
    apply Hsorted_str in Es. apply (Permutation_in _ (Permutation_sym Es)) in Hin.
    apply unique_str_In in Hin. unfold month_labels in Hin.
    apply in_flat_map in Hin as (t & Ht & Hl). exists t. split; [exact Ht|].
    unfold in_month. destruct (Date t) as [d|]; [|destruct Hl].
    destruct Hl as [Hl|[]]. rewrite <- Hl. apply String.eqb_refl. }
  split; [exact Hcats|]. split; [exact Hmonth|].
  intros Hne. split.
  - unfold category_filter. destruct filter_category as [|c cs]; [exact Hne|].
    destruct (Hcats c (or_introl eq_refl)) as (Hna & _ & t & Ht & Hc).
    apply (filter_has _ _ t); [apply in_or_app; now left|].
    unfold isin. cbn [existsb]. rewrite Hc, (cell_eqb_refl c Hna). reflexivity.
  - unfold month_filter.
    destruct (negb (String.eqb filter_month "All")) eqn:E; [|exact Hne].
    destruct Hmonth as [->|(t & Ht & Hm)]; [discriminate|].
    apply (filter_has _ _ t); [apply in_or_app; now left | exact Hm].
Qed.

Lemma sorted_example_rearranges : rearranges sorted_example.
Proof.
  intros l l' H. unfold sorted_example in H.
  destruct l as [|a [|b l]]; try discriminate; now injection H as <-.
Qed.

Lemma sorted_str_example_rearranges : rearranges sorted_str_example.
Proof. intros l l' [= <-]. reflexivity. Qed.

Lemma sidebar_offers_what_exists_witness :
  rearranges sorted_example
  /\ rearranges sorted_str_example
  /\ sidebar_filters strftime_example sorted_example sorted_str_example
       [lunch_30] "" pick_all 1
     = Ok (""%string, [Str "Food"], "January 1970"%string)
  /\ category_filter [Str "Food"] ([lunch_30] ++ [dinner_february]) <> []
  /\ month_filter strftime_example "January 1970" ([lunch_30] ++ [dinner_february])
     <> [].
Proof.
  split; [exact sorted_example_rearranges|].
  split; [exact sorted_str_example_rearranges|].
  split; [reflexivity|].
  apply (sidebar_offers_what_exists strftime_example sorted_example
           sorted_str_example [lunch_30] [dinner_february] "" pick_all 1
           "" [Str "Food"] "January 1970"
           sorted_example_rearranges sorted_str_example_rearranges eq_refl).
  discriminate.
Defined.

(** ** The pie chart *)














(** ** The monthly summary *)





(** ** The forms and the reconciliation together *)

Lemma positive_guard (a : Q) : negb (Qle_bool a 0) = true -> 0 < a.
Proof.
  intros H. apply negb_true_iff in H. apply Qnot_le_lt. intros Hle.
  apply Qle_bool_iff in Hle. congruence.
Qed.

Lemma fold_rules_positive (clock : nat -> Timestamp)
    (strftime_BY : Timestamp -> string) (label : string) (rules : list Recurring) :
  Forall positive_rule rules ->
  forall s,
    Forall positive_amount (transactions s) ->
    Forall positive_amount
      (transactions (fold_left (rule_step clock strftime_BY label) rules s)).
Proof.
  induction 1 as [|rec rules Hrec _ IH]; intros s Hs; cbn [fold_left];
    [exact Hs|].
  apply IH.
  destruct (rule_step_cases clock strftime_BY label s rec) as [[_ E]|[_ E]];
    rewrite E; [exact Hs|].
  cbn [transactions]. apply Forall_app. split; [exact Hs|].
  constructor; [|constructor]. exists (rec_Amount rec). now split.
Qed.

(** X15. Amounts entered through the forms are positive, and stay so
    through the reconciliation.  When every row of the store and every
    rule has a positive amount, this still holds after the transaction
    form, the recurring form and the reconciliation, whatever was typed
    in the forms: an amount that is not positive is not taken. *)
Theorem entry_keeps_amounts_positive (clock : nat -> Timestamp)
    (strftime_BY : Timestamp -> string)
    (t_type t_cat : string) (t_amt : Q) (desc : string) (submit : bool)
    (r_type r_cat : string) (r_amt : Q) (r_desc : string) (add_rec : bool)
    (s : Session) :
  Forall positive_amount (transactions s) ->
  Forall positive_rule (recurring s) ->
  exists s',
    (transaction_form clock t_type t_cat t_amt desc submit ;;;
     recurring_form r_type r_cat r_amt r_desc add_rec ;;;
     apply_recurring clock strftime_BY) s = (Ok tt, s')
    /\ Forall positive_amount (transactions s')
    /\ Forall positive_rule (recurring s')
    /\ (t_amt <= 0 -> r_amt <= 0 ->
        exists added, transactions s' = transactions s ++ added
                      /\ recurring s' = recurring s
                      /\ (length added <= length (recurring s))%nat).
Proof.
  intros Hrows Hrules.
  unfold bindPy. rewrite transaction_form_run.
  set (s1 := if submit && negb (Qle_bool t_amt 0) then _ else s).
  assert (H1 : Forall positive_amount (transactions s1)
                /\ recurring s1 = recurring s
                /\ (t_amt <= 0 -> s1 = s)).
  { unfold s1. destruct submit; cbn [andb]; [|now repeat split].
    destruct (negb (Qle_bool t_amt 0)) eqn:E.
    - cbn [transactions recurring]. split; [|split; [reflexivity|]].
      + apply Forall_app. split; [exact Hrows|].
        constructor; [|constructor]. exists t_amt. split; [reflexivity|].
        now apply positive_guard.
      + intros Hle. apply positive_guard in E.
        exfalso. apply (Qlt_not_le _ _ E Hle).
    - now repeat split. }
  destruct H1 as (H1 & R1 & Z1).
  rewrite recurring_form_run.
  set (s2 := if add_rec && negb (Qle_bool r_amt 0) then _ else s1).
  assert (H2 : Forall positive_amount (transactions s2)
                /\ Forall positive_rule (recurring s2)
                /\ (r_amt <= 0 -> s2 = s1)).
  { unfold s2. destruct add_rec; cbn [andb];
      [|rewrite R1; now repeat split].
    destruct (negb (Qle_bool r_amt 0)) eqn:E.
    - cbn [transactions recurring]. rewrite R1. split; [exact H1|]. split.
      + apply Forall_app. split; [exact Hrules|].
        constructor; [|constructor]. now apply positive_guard.
      + intros Hle. apply positive_guard in E.
        exfalso. apply (Qlt_not_le _ _ E Hle).
    - rewrite R1. now repeat split. }
  destruct H2 as (H2 & R2 & Z2).
  rewrite apply_recurring_run. eexists. split; [reflexivity|].
  destruct (fold_rules clock strftime_BY
              (strftime_BY (clock (clock_reads s2))) (recurring s2)
              (mkSession (transactions s2) (recurring s2) (shown s2)
                 (S (clock_reads s2))))
    as (Hr & _ & _ & added & Ht & Hlen & _).
  cbn [transactions recurring] in Hr, Ht.
  split; [now apply fold_rules_positive|].
  split; [now rewrite Hr|].
  intros Hz1 Hz2. exists added.
  rewrite Hr, Ht, (Z2 Hz2), (Z1 Hz1). repeat split.
  now rewrite (Z2 Hz2), (Z1 Hz1) in Hlen.
Qed.

Lemma session_example_positive :
  Forall positive_amount (transactions session_example)
  /\ Forall positive_rule (recurring session_example).
Proof.
  split; [constructor|]. constructor; [|constructor]. reflexivity.
Qed.

Lemma entry_keeps_amounts_positive_witness :
  Forall positive_amount (transactions session_example)
  /\ Forall positive_rule (recurring session_example)
  /\ exists s',
       (transaction_form clock_january "Expense" "Food" 0 "nothing" true ;;;
        recurring_form "Expense" "Bills" 50 "rent" true ;;;
        apply_recurring clock_january strftime_example) session_example
       = (Ok tt, s')
       /\ Forall positive_amount (transactions s').
Proof.
  split; [exact (proj1 session_example_positive)|].
  split; [exact (proj2 session_example_positive)|].
  destruct (entry_keeps_amounts_positive clock_january strftime_example
              "Expense" "Food" 0 "nothing" true "Expense" "Bills" 50 "rent" true
              session_example (proj1 session_example_positive)
              (proj2 session_example_positive)) as (s' & E & H & _).
  exists s'. auto.
Defined.

(** X12. The reconciliation looks at the description, the category and
    the month of a row, not at its kind or amount.  A transaction entered
    through the form under the description and category of a rule,
    whatever its kind and amount, keeps the reconciliation of the same
    month from adding a row for that rule. *)
Theorem manual_entry_suppresses_rule (clock : nat -> Timestamp)
    (strftime_BY : Timestamp -> string) (rec : Recurring)
    (t_type : string) (t_amt : Q) (s : Session) :
  same_period clock strftime_BY (clock_reads s) ->
  0 < t_amt ->
  let now_month := strftime_BY (clock (clock_reads s)) in
  let entered := mkTransaction (Some (clock (clock_reads s))) (Str t_type)
                   (Str (rec_Category rec)) (Str (rec_Description rec))
                   (Some t_amt) in
  exists s' added,
    (transaction_form clock t_type (rec_Category rec) t_amt (rec_Description rec)
       true ;;;
     apply_recurring clock strftime_BY) s = (Ok tt, s')
    /\ transactions s' = transactions s ++ [entered] ++ added
    /\ filter (matches strftime_BY rec now_month) added = [].
Proof.
  intros Hp Hpos now_month entered.
  unfold bindPy. rewrite transaction_form_run.
  assert (Hg : negb (Qle_bool t_amt 0) = true).
  { apply negb_true_iff. destruct (Qle_bool t_amt 0) eqn:E; [|reflexivity].
    apply Qle_bool_iff in E. exfalso. apply (Qlt_not_le _ _ Hpos E). }
  rewrite Hg. cbn [andb]. rewrite apply_recurring_run.
  cbn [transactions recurring shown clock_reads].
  fold entered.
  assert (Hlabel : strftime_BY (clock (S (clock_reads s))) = now_month)
    by (apply Hp; lia).
  rewrite Hlabel.
  destruct (fold_rules clock strftime_BY now_month (recurring s)
              (mkSession (transactions s ++ [entered]) (recurring s)
                 (shown s ++ [st_success_msg "Transaction Added!"])
                 (S (S (clock_reads s)))))
    as (_ & _ & _ & added & Ht & _ & _ & Hnone).
  cbn [transactions] in Ht, Hnone.
  eexists. exists added. split; [reflexivity|].
  split; [now rewrite Ht, <- app_assoc|].
  apply Hnone. rewrite existsb_app. apply orb_true_iff. right.
  cbn [existsb]. rewrite orb_false_r. apply matches_own_row.
Qed.

Lemma manual_entry_suppresses_rule_witness :
  same_period clock_january strftime_example (clock_reads session_example)
  /\ 0 < 45
  /\ exists s',
       (transaction_form clock_january "Income" "Bills" 45 "rent" true ;;;
        apply_recurring clock_january strftime_example) session_example
       = (Ok tt, s')
       /\ length (transactions s') = 1%nat.
Proof.
  split; [exact same_period_january|]. split; [reflexivity|].
  destruct (manual_entry_suppresses_rule clock_january strftime_example rent
              "Income" 45 session_example same_period_january eq_refl)
    as (s' & added & E & Ht & Hn).
  exists s'. split; [exact E|].
  injection E as <-. reflexivity.
Defined.
